(** * shared-component-builder: a shallow embedding of [src/component-builder.js]

    The development follows the source file top to bottom.  JavaScript
    values are an inductive type, plain objects are association lists in
    insertion order, the builder's [Map] and the host's [customElements]
    registry are finite maps, and every method of [ComponentBuilder] is a
    computation in a small state-and-exception monad over the pair
    (builder, realm). *)

From Stdlib Require Import ZArith Ascii String List Bool Lia.
From Stdlib Require Import Numbers.DecimalString.
From stdpp Require Import base option list strings gmap.

Set Warnings "-register-all".

Local Open Scope string_scope.
Local Open Scope list_scope.

(* ===================================================================== *)
(** ** Characters and strings as the source uses them *)
(* ===================================================================== *)

Definition ascii_in (lo hi c : ascii) : bool :=
  (N.leb (N_of_ascii lo) (N_of_ascii c)) && (N.leb (N_of_ascii c) (N_of_ascii hi)).

(** The regular-expression class [\w]: ASCII letters, digits and underscore. *)
Definition is_word_char (c : ascii) : bool :=
  ascii_in "a" "z" c || ascii_in "A" "Z" c || ascii_in "0" "9" c
  || Ascii.eqb c "_".

(** [String.prototype.toUpperCase] on one ASCII character. *)
Definition upper_char (c : ascii) : ascii :=
  if ascii_in "a" "z" c then ascii_of_N (N_of_ascii c - 32) else c.

Definition hyphen : ascii := "-"%char.

(** [s.startsWith(p)] *)
Definition startsWith (s p : string) : bool := String.prefix p s.

(** [xs.join(sep)] on strings. *)
Fixpoint join (sep : string) (xs : list string) : string :=
  match xs with
  | [] => ""
  | [x] => x
  | x :: rest => x +:+ sep +:+ join sep rest
  end.

(** [s.replace(/`/g, '\\`')]: every backtick gets a backslash in front. *)
Fixpoint escape_backticks (s : string) : string :=
  match s with
  | EmptyString => EmptyString
  | String c rest =>
      if Ascii.eqb c "`" then String "\" (String "`" (escape_backticks rest))
      else String c (escape_backticks rest)
  end.

(** [s.includes(c)] for one character. *)
Fixpoint has_char (c : ascii) (s : string) : bool :=
  match s with
  | EmptyString => false
  | String d rest => Ascii.eqb d c || has_char c rest
  end.

Definition Z_to_string (n : Z) : string := NilEmpty.string_of_int (Z.to_int n).

(* ===================================================================== *)
(** ** [toPascalCase] (component-builder.js, lines 279-283) *)
(* ===================================================================== *)

(** [str.replace(/(^\w|-\w)/g, m => m.replace('-', '').toUpperCase())].
    The scan goes left to right; [atStart] says whether the position is
    index 0, where the alternative [^\w] may match.  A match is replaced
    by its word character in upper case and the scan resumes after it; a
    character where nothing matches is copied. *)
Fixpoint pascal_scan (atStart : bool) (s : string) : string :=
  match s with
  | EmptyString => EmptyString
  | String c rest =>
      if atStart && is_word_char c then String (upper_char c) (pascal_scan false rest)
      else if Ascii.eqb c hyphen then
        match rest with
        | String d rest' =>
            if is_word_char d then String (upper_char d) (pascal_scan false rest')
            else String c (pascal_scan false rest)
        | EmptyString => String c EmptyString
        end
      else String c (pascal_scan false rest)
  end.

Definition toPascalCase (str : string) : string := pascal_scan true str.

(** The derivation in the words of the specification: split the name on
    hyphens, upper-case the first letter of each segment, concatenate. *)
Fixpoint split_hyphen (cur : string) (s : string) : list string :=
  match s with
  | EmptyString => [cur]
  | String c rest =>
      if Ascii.eqb c hyphen then cur :: split_hyphen "" rest
      else split_hyphen (cur +:+ String c "") rest
  end.

Definition capitalize (seg : string) : string :=
  match seg with
  | EmptyString => EmptyString
  | String c rest => String (upper_char c) rest
  end.

Definition pascal_spec (name : string) : string :=
  String.concat "" (map capitalize (split_hyphen "" name)).

(** The same derivation read off character by character: [cap] says
    whether the next character opens a segment. *)
Fixpoint spec_walk (cap : bool) (s : string) : string :=
  match s with
  | EmptyString => EmptyString
  | String c rest =>
      if Ascii.eqb c hyphen then spec_walk true rest
      else String (if cap then upper_char c else c) (spec_walk false rest)
  end.

(** Every hyphen of [s] is immediately followed by a [\w] character. *)
Fixpoint hyphens_lead_words (s : string) : bool :=
  match s with
  | EmptyString => true
  | String c rest =>
      (if Ascii.eqb c hyphen then
         match rest with
         | String d _ => is_word_char d
         | EmptyString => false
         end
       else true) && hyphens_lead_words rest
  end.

(* ===================================================================== *)
(** ** JavaScript values, errors and plain objects *)
(* ===================================================================== *)

(** A thrown JavaScript error: its constructor name and its message.  The
    source throws plain [Error]s; the engine and the host throw
    [SyntaxError], [TypeError] and the like. *)
Record JsError := mkError { err_name : string; err_message : string }.

Definition TypeError (msg : string) : JsError := mkError "TypeError" msg.
Definition SyntaxError (msg : string) : JsError := mkError "SyntaxError" msg.
Definition PlainError (msg : string) : JsError := mkError "Error" msg.

(** Values.  [Fn] is the engine's representation of function objects.  A
    plain object is the list of its own properties in insertion order
    (keys are unique in a well-formed object); arrays and functions carry
    no extra own properties. *)
Inductive JsValue (Fn : Type) : Type :=
| VUndefined
| VNull
| VBool (b : bool)
| VNum (n : Z)
| VStr (s : string)
| VArr (items : list (JsValue Fn))
| VObj (fields : list (string * JsValue Fn))
| VFun (f : Fn).

Arguments VUndefined {Fn}.
Arguments VNull {Fn}.
Arguments VBool {Fn} b.
Arguments VNum {Fn} n.
Arguments VStr {Fn} s.
Arguments VArr {Fn} items.
Arguments VObj {Fn} fields.
Arguments VFun {Fn} f.

Abbreviation JsObject Fn := (list (string * JsValue Fn)).

(** Result of a computation that may throw and touches no state. *)
Inductive Exc (A : Type) : Type :=
| Val (a : A)
| Raise (e : JsError).
Arguments Val {A} a.
Arguments Raise {A} e.

Definition exc_bind {A B} (c : Exc A) (k : A -> Exc B) : Exc B :=
  match c with
  | Val a => k a
  | Raise e => Raise e
  end.

Notation "'let?' x ':=' c 'in' k" := (exc_bind c (fun x => k))
  (at level 10, x pattern, c at level 100, k at level 200).

(** A loop body that may throw, run over a list from left to right. *)
Fixpoint exc_fold {A B} (f : B -> A -> Exc B) (acc : B) (xs : list A) : Exc B :=
  match xs with
  | [] => Val acc
  | x :: rest => let? acc' := f acc x in exc_fold f acc' rest
  end.

Section Objects.
Context {Fn : Type}.
Implicit Types (o : JsObject Fn) (v : JsValue Fn) (k : string).

(** Own property lookup. *)
Fixpoint obj_get o k : option (JsValue Fn) :=
  match o with
  | [] => None
  | (k', v) :: rest => if String.eqb k' k then Some v else obj_get rest k
  end.

(** [o.k]: a missing property reads as [undefined]. *)
Definition prop o k : JsValue Fn := default VUndefined (obj_get o k).

(** [o[k] = v]: an existing key keeps its position, a new key goes last. *)
Fixpoint obj_set k v o : JsObject Fn :=
  match o with
  | [] => [(k, v)]
  | (k', v') :: rest =>
      if String.eqb k' k then (k, v) :: rest else (k', v') :: obj_set k v rest
  end.

(** An object literal [{ k1: v1, ..., ...spread }]: the entries are
    written one after the other, later ones overwrite earlier ones. *)
Definition obj_literal (entries : list (string * JsValue Fn)) : JsObject Fn :=
  fold_left (fun o kv => obj_set kv.1 kv.2 o) entries [].

(** The value the last entry for [k] gives, if there is one. *)
Fixpoint last_entry k (entries : list (string * JsValue Fn)) : option (JsValue Fn) :=
  match entries with
  | [] => None
  | (k', v) :: rest =>
      match last_entry k rest with
      | Some w => Some w
      | None => if String.eqb k' k then Some v else None
      end
  end.

(** ToBoolean. *)
Definition truthy v : bool :=
  match v with
  | VUndefined | VNull => false
  | VBool b => b
  | VNum n => negb (Z.eqb n 0)
  | VStr s => negb (String.eqb s "")
  | VArr _ | VObj _ | VFun _ => true
  end.

(** [a || b] *)
Definition js_or (a b : JsValue Fn) : JsValue Fn := if truthy a then a else b.

Definition index_keys (n : nat) : list string :=
  map (fun i => Z_to_string (Z.of_nat i)) (seq 0 n).

Definition chars_of (s : string) : list (JsValue Fn) :=
  map (fun c => VStr (String c EmptyString)) (list_ascii_of_string s).

(** The own enumerable properties that [Object.keys(v)] walks, each
    with the value [v[key]] reads.  Only called on truthy values. *)
Definition own_entries v : list (string * JsValue Fn) :=
  match v with
  | VObj o => o
  | VArr items => zip (index_keys (length items)) items
  | VStr s => zip (index_keys (String.length s)) (chars_of s)
  | _ => []
  end.
End Objects.

(* ===================================================================== *)
(** ** The JavaScript engine: what the source asks of functions *)
(* ===================================================================== *)

(** The source makes functions into text ([f.toString()]), text into
    functions ([new Function(...)]), and calls functions.  These three
    services of the engine are an interface; [MiniJs] below implements it
    for a fragment of the language.  Calls are pure: a template or a
    method reads [this] and its arguments and returns a value or throws. *)
Class JsEngine (Fn : Type) := {
  fn_toString : Fn -> string;
  new_Function : list string -> string -> Exc Fn;
  fn_call : Fn -> JsValue Fn -> list (JsValue Fn) -> Exc (JsValue Fn)
}.

Definition dquote : string := String (ascii_of_nat 34) EmptyString.
Definition nl : string := String (ascii_of_nat 10) EmptyString.

Definition hex_digit (n : N) : ascii :=
  if N.ltb n 10 then ascii_of_N (48 + n) else ascii_of_N (87 + n).

(** One character inside a JSON string literal. *)
Definition json_escape_char (c : ascii) : string :=
  let n := N_of_ascii c in
  if N.eqb n 34 then "\" +:+ dquote
  else if N.eqb n 92 then "\\"
  else if N.eqb n 8 then "\b"
  else if N.eqb n 12 then "\f"
  else if N.eqb n 10 then "\n"
  else if N.eqb n 13 then "\r"
  else if N.eqb n 9 then "\t"
  else if N.ltb n 32 then
    "\u00" +:+ String (hex_digit (N.div n 16)) (String (hex_digit (N.modulo n 16)) "")
  else String c "".

Definition json_quote (s : string) : string :=
  dquote +:+ String.concat "" (map json_escape_char (list_ascii_of_string s)) +:+ dquote.

Section Conversions.
Context {Fn : Type} {engine : JsEngine Fn}.
Implicit Types (o : JsObject Fn) (v : JsValue Fn).

(** ToString, as string concatenation and template literals apply it;
    [show] is the engine's [Function.prototype.toString]. *)
Fixpoint value_text (show : Fn -> string) v : string :=
  match v with
  | VUndefined => "undefined"
  | VNull => "null"
  | VBool b => if b then "true" else "false"
  | VNum n => Z_to_string n
  | VStr s => s
  | VArr items =>
      join "," (map (fun x => match x with
                              | VUndefined | VNull => ""
                              | _ => value_text show x
                              end) items)
  | VObj _ => "[object Object]"
  | VFun f => show f
  end.

Definition js_toString v : string := value_text fn_toString v.

(** The method call [v.toString()]: there is none on [undefined] and
    [null]. *)
Definition call_toString (what : string) v : Exc string :=
  match v with
  | VUndefined =>
      Raise (TypeError ("Cannot read properties of undefined (reading 'toString'): " +:+ what))
  | VNull =>
      Raise (TypeError ("Cannot read properties of null (reading 'toString'): " +:+ what))
  | _ => Val (js_toString v)
  end.

(** [JSON.stringify(v)]; [None] is the JavaScript [undefined] it returns
    for [undefined] and for functions. *)
Fixpoint JSON_stringify v : option string :=
  match v with
  | VUndefined | VFun _ => None
  | VNull => Some "null"
  | VBool b => Some (if b then "true" else "false")
  | VNum n => Some (Z_to_string n)
  | VStr s => Some (json_quote s)
  | VArr items =>
      Some ("[" +:+ join "," (map (fun x => default "null" (JSON_stringify x)) items) +:+ "]")
  | VObj fields =>
      Some ("{" +:+ join ","
              (omap (fun kv => match JSON_stringify kv.2 with
                               | Some t => Some (json_quote kv.1 +:+ ":" +:+ t)
                               | None => None
                               end) fields) +:+ "}")
  end.

Definition stringify_text v : string := default "undefined" (JSON_stringify v).
End Conversions.

(* ===================================================================== *)
(** ** The realm, the builder, and the monad the methods run in *)
(* ===================================================================== *)

(** An element class.  [GeneratedComponent] is the class declared inside
    [registerWebComponent]: it closes over [definition], and [custom] is
    what the loop over [definition.methods] assigned onto its prototype.
    [ScriptComponent] is the class a generated script declares; it has the
    export record inlined (its instances are not modelled). *)
Inductive ElementClass (Fn : Type) : Type :=
| GeneratedComponent (definition : JsObject Fn) (custom : JsObject Fn)
| ScriptComponent (componentData : JsObject Fn).
Arguments GeneratedComponent {Fn} definition custom.
Arguments ScriptComponent {Fn} componentData.

(** A [fetch] call as the source issues it. *)
Record Request := mkRequest {
  req_url : string;
  req_method : string;
  req_body : option string
}.

(** The execution context outside the builder: the element registry, the
    globals a generated script assigns, the console, the [fetch] calls
    issued so far and the clock behind [Date.now()]; then what the host
    answers: which names [customElements.define] accepts, what a request
    resolves to once its body is read with [.json()], and [JSON.parse]. *)
Record Realm (Fn : Type) := mkRealm {
  customElements : gmap string (ElementClass Fn);
  windowGlobals : gmap string (ElementClass Fn);
  console : list (string * string);
  fetched : list Request;
  clock : Z;
  validName : string -> bool;
  network : Request -> Exc (JsValue Fn);
  JSON_parse : string -> Exc (JsValue Fn)
}.
Arguments mkRealm {Fn}.
Arguments customElements {Fn}.
Arguments windowGlobals {Fn}.
Arguments console {Fn}.
Arguments fetched {Fn}.
Arguments clock {Fn}.
Arguments validName {Fn}.
Arguments network {Fn}.
Arguments JSON_parse {Fn}.

(** [this.registry] (a [Map] from names to records) and [this.config]. *)
Record Builder (Fn : Type) := mkBuilder {
  registry : gmap string (JsObject Fn);
  config : JsObject Fn
}.
Arguments mkBuilder {Fn}.
Arguments registry {Fn}.
Arguments config {Fn}.

Record State (Fn : Type) := mkState {
  builder : Builder Fn;
  realm : Realm Fn
}.
Arguments mkState {Fn}.
Arguments builder {Fn}.
Arguments realm {Fn}.

(** A call either returns or throws; both leave a state behind, since
    what was written before a [throw] stays written. *)
Inductive Outcome (S A : Type) : Type :=
| Return (a : A) (s : S)
| Throw (e : JsError) (s : S).
Arguments Return {S A} a s.
Arguments Throw {S A} e s.

Definition final {S A} (r : Outcome S A) : S :=
  match r with
  | Return _ s => s
  | Throw _ s => s
  end.

Definition M (S A : Type) : Type := S -> Outcome S A.

Definition ret {S A} (a : A) : M S A := fun s => Return a s.
Definition throw {S A} (e : JsError) : M S A := fun s => Throw e s.
Definition bind {S A B} (c : M S A) (k : A -> M S B) : M S B :=
  fun s => match c s with
           | Return a s' => k a s'
           | Throw e s' => Throw e s'
           end.
Definition gets {S A} (f : S -> A) : M S A := fun s => Return (f s) s.
Definition modify {S} (f : S -> S) : M S unit := fun s => Return tt (f s).
Definition lift {S A} (c : Exc A) : M S A :=
  match c with
  | Val a => ret a
  | Raise e => throw e
  end.

Notation "'let!' x ':=' c 'in' k" := (bind c (fun x => k))
  (at level 10, x pattern, c at level 100, k at level 200).
Notation "c ';;' k" := (bind c (fun _ => k))
  (at level 100, k at level 200, right associativity).

Section RealmOps.
Context {Fn : Type}.

Definition set_registry (name : string) (record : JsObject Fn) (s : State Fn) : State Fn :=
  mkState (mkBuilder (<[name := record]> (registry (builder s))) (config (builder s)))
          (realm s).

Definition with_customElements (ce : gmap string (ElementClass Fn)) (r : Realm Fn) : Realm Fn :=
  mkRealm ce (windowGlobals r) (console r) (fetched r) (clock r)
          (validName r) (network r) (JSON_parse r).

Definition with_fetched (f : list Request) (r : Realm Fn) : Realm Fn :=
  mkRealm (customElements r) (windowGlobals r) (console r) f (clock r)
          (validName r) (network r) (JSON_parse r).

Definition on_realm (f : Realm Fn -> Realm Fn) (s : State Fn) : State Fn :=
  mkState (builder s) (f (realm s)).

(** [Date.now()] *)
Definition Date_now : M (State Fn) Z := gets (fun s => clock (realm s)).

(** [customElements.define(name, cls)]: the host refuses a name that is
    not a valid custom-element name.  The source never calls it for a
    name that is already taken. *)
Definition customElements_define (name : string) (cls : ElementClass Fn)
  : M (Realm Fn) unit :=
  fun r =>
    if validName r name
    then Return tt (with_customElements (<[name := cls]> (customElements r)) r)
    else Throw (mkError "SyntaxError"
                  ("Failed to execute 'define' on 'CustomElementRegistry': " +:+ name
                   +:+ " is not a valid custom element name")) r.

(** [fetch(url, init)] followed by [.json()] on the response: the call is
    recorded, the host decides the answer. *)
Definition fetch_json (req : Request) : M (State Fn) (JsValue Fn) :=
  fun s =>
    let s' := on_realm (fun r => with_fetched (fetched r ++ [req]) r) s in
    match network (realm s) req with
    | Val v => Return v s'
    | Raise e => Throw e s'
    end.

(** Run a computation on the realm inside a computation on the state. *)
Definition in_realm {A} (c : M (Realm Fn) A) : M (State Fn) A :=
  fun s => match c (realm s) with
           | Return a r => Return a (mkState (builder s) r)
           | Throw e r => Throw e (mkState (builder s) r)
           end.
End RealmOps.

(* ===================================================================== *)
(** ** [class ComponentBuilder] *)
(* ===================================================================== *)

Section ComponentBuilder.
Context {Fn : Type} {engine : JsEngine Fn}.
Implicit Types (name : string) (definition options : JsObject Fn) (s : State Fn).

(** [constructor(options = {})], lines 12-19. *)
Definition new_builder options : Builder Fn :=
  mkBuilder ∅
    (obj_literal
       ([("apiEndpoint", js_or (prop options "apiEndpoint") VNull);
         ("localRegistry", js_or (prop options "localRegistry") (VBool true))]
        ++ options)).

(** [serializeMethods(methods)], lines 255-261. *)
Definition serializeMethods (methods : JsValue Fn) : Exc (JsObject Fn) :=
  exc_fold (fun serialized kv =>
              let? text := call_toString kv.1 kv.2 in
              Val (obj_set kv.1 (VStr text) serialized))
           [] (own_entries methods).

(** The keys the filter of line 40 keeps out of the spread. *)
Definition define_filtered_keys : list string :=
  ["version"; "props"; "template"; "styles"; "methods"; "events"].

Definition kept_by_filter (kv : string * JsValue Fn) : bool :=
  negb (existsb (String.eqb kv.1) define_filtered_keys).

(** The object literal of lines 30-41, given the two values computed
    before it. *)
Definition componentDef_of name definition (serializedMethods : JsObject Fn)
    (templateText : string) (now : Z) : JsObject Fn :=
  obj_literal
    ([("name", VStr name);
      ("version", js_or (prop definition "version") (VStr "1.0.0"));
      ("props", js_or (prop definition "props") (VArr []));
      ("template", VStr templateText);
      ("styles", js_or (prop definition "styles") (VStr ""));
      ("methods", VObj serializedMethods);
      ("events", js_or (prop definition "events") (VArr []));
      ("created", VNum now)]
     ++ List.filter kept_by_filter definition).

(** The class declaration and the prototype loop of lines 197-245. *)
Definition make_GeneratedComponent definition : ElementClass Fn :=
  let methods := prop definition "methods" in
  GeneratedComponent definition
    (if truthy methods
     then fold_left (fun proto kv => obj_set kv.1 kv.2 proto) (own_entries methods) []
     else []).

(** [registerWebComponent(name, definition)], lines 192-248. *)
Definition registerWebComponent name definition : M (State Fn) unit :=
  let! registered := gets (fun s => customElements (realm s) !! name) in
  match registered with
  | Some _ => ret tt
  | None => in_realm (customElements_define name (make_GeneratedComponent definition))
  end.

(** [define(name, definition)], lines 27-48. *)
Definition define name definition : M (State Fn) (JsObject Fn) :=
  let methods := prop definition "methods" in
  let! serializedMethods :=
    lift (if truthy methods then serializeMethods methods else Val []) in
  let! templateText := lift (call_toString "template" (prop definition "template")) in
  let! now := Date_now in
  let componentDef := componentDef_of name definition serializedMethods templateText now in
  modify (set_registry name componentDef) ;;
  registerWebComponent name definition ;;
  ret componentDef.

(** [generateMethodsCode(methods)], lines 268-272. *)
Definition generateMethodsCode (methods : JsValue Fn) : Exc string :=
  match methods with
  | VUndefined | VNull =>
      Raise (TypeError "Cannot convert undefined or null to object")
  | _ =>
      Val (join (nl +:+ "    ")
             (map (fun kv => kv.1 +:+ "() { " +:+ js_toString kv.2 +:+ " }")
                  (own_entries methods)))
  end.

(** [props.map(p => `${p}="value"`).join(' ')], lines 183 and 296. *)
Definition usage_attributes (props : JsValue Fn) : Exc string :=
  match props with
  | VArr items =>
      Val (join " " (map (fun p => js_toString p +:+ "=" +:+ dquote +:+ "value" +:+ dquote)
                         items))
  | VUndefined | VNull =>
      Raise (TypeError "Cannot read properties of undefined (reading 'map')")
  | _ => Raise (TypeError "props.map is not a function")
  end.

(** [toPascalCase(componentData.name)]: [replace] exists on strings only. *)
Definition pascal_of (v : JsValue Fn) : Exc string :=
  match v with
  | VStr str => Val (toPascalCase str)
  | VUndefined | VNull =>
      Raise (TypeError "Cannot read properties of undefined (reading 'replace')")
  | _ => Raise (TypeError "str.replace is not a function")
  end.

(** [generateScript(componentData)], lines 125-185. *)
Definition generateScript (componentData : JsObject Fn) : Exc string :=
  let name := js_toString (prop componentData "name") in
  let? pascal := pascal_of (prop componentData "name") in
  let observed := stringify_text (prop componentData "props") in
  let template := js_toString (prop componentData "template") in
  let styles := js_toString (prop componentData "styles") in
  let? methodsCode := generateMethodsCode (prop componentData "methods") in
  let? usage := usage_attributes (prop componentData "props") in
  Val (join nl
    [ "";
      "// Generated component script for " +:+ name;
      "(function() {";
      "  'use strict';";
      "  ";
      "  if (customElements.get('" +:+ name +:+ "')) {";
      "    console.warn('Component " +:+ name +:+ " already registered');";
      "    return;";
      "  }";
      "";
      "  class " +:+ pascal +:+ " extends HTMLElement {";
      "    constructor() {";
      "      super();";
      "      this.attachShadow({ mode: 'open' });";
      "      this.props = {};";
      "      this.state = {};";
      "    }";
      "";
      "    static get observedAttributes() {";
      "      return " +:+ observed +:+ ";";
      "    }";
      "";
      "    connectedCallback() {";
      "      this.updateProps();";
      "      this.render();";
      "    }";
      "";
      "    attributeChangedCallback(name, oldValue, newValue) {";
      "      if (oldValue !== newValue) {";
      "        this.props[name] = newValue;";
      "        this.render();";
      "      }";
      "    }";
      "";
      "    updateProps() {";
      "      " +:+ observed +:+ ".forEach(prop => {";
      "        this.props[prop] = this.getAttribute(prop) || '';";
      "      });";
      "    }";
      "";
      "    render() {";
      "      const template = " +:+ template +:+ ";";
      "      const html = template.call(this, this.props, this.state);";
      "      const styles = `" +:+ styles +:+ "`;";
      "      this.shadowRoot.innerHTML = styles ? `<style>${styles}</style>${html}` : html;";
      "    }";
      "";
      "    " +:+ methodsCode;
      "  }";
      "";
      "  customElements.define('" +:+ name +:+ "', " +:+ pascal +:+ ");";
      "  ";
      "  // Expose for manual instantiation";
      "  window." +:+ pascal +:+ " = " +:+ pascal +:+ ";";
      "})();";
      "";
      "// Usage instructions:";
      "// <" +:+ name +:+ " " +:+ usage +:+ "></" +:+ name +:+ ">";
      "" ]).


(** [generateUsageInstructions(componentName)], lines 290-298. *)
Definition generateUsageInstructions (componentName : string) : M (State Fn) string :=
  let! found := gets (fun s => registry (builder s) !! componentName) in
  match found with
  | None => throw (TypeError "Cannot read properties of undefined (reading 'props')")
  | Some component =>
      let! usage := lift (usage_attributes (prop component "props")) in
      ret (join nl
        [ "";
          "Usage Instructions:";
          "1. Copy the generated script to Project B";
          "2. Include it in your HTML: <script src=" +:+ dquote +:+ "path/to/"
            +:+ componentName +:+ ".js" +:+ dquote +:+ "></script>";
          "3. Use the component: <" +:+ componentName +:+ " " +:+ usage +:+ "></"
            +:+ componentName +:+ ">";
          "" ])
  end.

Definition not_configured : JsError := PlainError "API endpoint not configured".
Definition not_found (componentName : string) : JsError :=
  PlainError ("Component " +:+ componentName +:+ " not found").

Definition apiEndpoint s : JsValue Fn := prop (config (builder s)) "apiEndpoint".

(** [saveToCloud(componentData)], lines 305-317. *)
Definition saveToCloud (componentData : JsObject Fn) : M (State Fn) (JsValue Fn) :=
  let! endpoint := gets apiEndpoint in
  if truthy endpoint
  then fetch_json (mkRequest (js_toString endpoint +:+ "/components") "POST"
                             (JSON_stringify (VObj componentData)))
  else throw not_configured.

(** [loadFromCloud(componentName)], lines 324-331. *)
Definition loadFromCloud (componentName : string) : M (State Fn) (JsValue Fn) :=
  let! endpoint := gets apiEndpoint in
  if truthy endpoint
  then fetch_json (mkRequest (js_toString endpoint +:+ "/components/" +:+ componentName)
                             "GET" None)
  else throw not_configured.

(** [options.type === t] *)
Definition type_is options (t : string) : bool :=
  match prop options "type" with
  | VStr u => String.eqb u t
  | _ => false
  end.

(** [export(componentName, options = {})], lines 56-87. *)
Definition export (componentName : string) options : M (State Fn) (JsValue Fn) :=
  let! found := gets (fun s => registry (builder s) !! componentName) in
  match found with
  | None => throw (not_found componentName)
  | Some component =>
      let! now := Date_now in
      let exportData :=
        obj_literal (component ++ [("exportedAt", VNum now); ("exportOptions", VObj options)]) in
      if type_is options "script" then
        let! text := lift (generateScript exportData) in ret (VStr text)
      else if type_is options "cloud" then
        let! endpoint := gets apiEndpoint in
        if truthy endpoint then saveToCloud exportData else throw not_configured
      else
        let! usage := generateUsageInstructions componentName in
        ret (VObj [("type", VStr "json"); ("data", VObj exportData); ("usage", VStr usage)])
  end.
End ComponentBuilder.

Section Reconstructor.
Context {Fn : Type} {engine : JsEngine Fn}.
Implicit Types (options : JsObject Fn) (s : State Fn).

(** The body text of line 342:
    [`return \`${componentData.template.replace(/`/g, '\\`')}\``]. *)
Definition template_body (templateText : string) : string :=
  "return `" +:+ escape_backticks templateText +:+ "`".

(** [new Function('props', 'state', body)] of line 342. *)
Definition compile_template (templateText : string) : Exc Fn :=
  new_Function ["props"; "state"] (template_body templateText).

(** [new Function('return ' + source)()] of line 351. *)
Definition compile_method (source : JsValue Fn) : Exc (JsValue Fn) :=
  let? f := new_Function [] ("return " +:+ js_toString source) in
  fn_call f VUndefined [].

(** Function-source text, in the words of the specification: text that
    parses and evaluates to a callable. *)
Definition is_function_source (text : string) : Prop :=
  exists f, compile_method (VStr text) = Val (VFun f).

(** [definition.methods[methodName] = value] on the current value of
    [definition.methods].  The file is a module, hence strict code: the
    assignment throws on [undefined], [null] and primitives.  An array or
    a function as [options.methods] is outside the declared types and is
    refused here as well. *)
Definition assign_method (target : JsValue Fn) (methodName : string) (value : JsValue Fn)
  : Exc (JsValue Fn) :=
  match target with
  | VObj m => Val (VObj (obj_set methodName value m))
  | VUndefined | VNull =>
      Raise (TypeError ("Cannot set properties of undefined (setting '" +:+ methodName +:+ "')"))
  | _ => Raise (TypeError ("Cannot create property '" +:+ methodName +:+ "'"))
  end.

(** The loop of lines 349-353 over [componentData.methods]. *)
Definition reconstruct_methods (methods : JsValue Fn) (target : JsValue Fn)
  : Exc (JsValue Fn) :=
  if truthy methods
  then exc_fold (fun tgt kv =>
                   let? value := compile_method kv.2 in
                   assign_method tgt kv.1 value)
                target (own_entries methods)
  else Val target.

(** Lines 340-353: the definition handed to [registerWebComponent]. *)
Definition reconstruct (componentData : JsObject Fn) options : Exc (JsObject Fn) :=
  match prop componentData "template" with
  | VStr templateText =>
      let? template := compile_template templateText in
      let definition :=
        obj_literal ([("props", prop componentData "props");
                      ("template", VFun template);
                      ("styles", prop componentData "styles");
                      ("methods", VObj [])]
                     ++ options) in
      let? methods :=
        reconstruct_methods (prop componentData "methods") (prop definition "methods") in
      Val (obj_set "methods" methods definition)
  | VUndefined | VNull =>
      Raise (TypeError "Cannot read properties of undefined (reading 'replace')")
  | _ => Raise (TypeError "componentData.template.replace is not a function")
  end.

(** [registerFromData(componentData, options = {})], lines 339-359.
    Anything but an object has no [template] to call [replace] on.  The
    name is used as a string by the element registry; the model keys the
    builder's [Map] by the same string. *)
Definition registerFromData (componentData : JsValue Fn) options
  : M (State Fn) (JsValue Fn) :=
  match componentData with
  | VObj data =>
      let! definition := lift (reconstruct data options) in
      let name := js_toString (prop data "name") in
      registerWebComponent name definition ;;
      modify (set_registry name data) ;;
      ret (prop data "name")
  | _ => throw (TypeError "Cannot read properties of undefined (reading 'replace')")
  end.

(** [import(source, options = {})], lines 95-118. *)
Definition import (source : JsValue Fn) options : M (State Fn) (JsValue Fn) :=
  let! componentData :=
    match source with
    | VStr text =>
        if startsWith text "http" then fetch_json (mkRequest text "GET" None)
        else if startsWith text "{" then
          let! parse := gets (fun s => JSON_parse (realm s)) in lift (parse text)
        else
          let! endpoint := gets apiEndpoint in
          if truthy endpoint then loadFromCloud text else throw not_configured
    | _ => ret source
    end in
  registerFromData componentData options.
End Reconstructor.

(* ===================================================================== *)
(** ** The element adapter: instances of [GeneratedComponent] *)
(* ===================================================================== *)

(** One element instance.  [el_renders] counts the runs of the class's
    own [render()]; it is not a field of the source, it is there to count
    re-renders. *)
Record Element (Fn : Type) := mkElement {
  el_definition : JsObject Fn;
  el_custom : JsObject Fn;
  el_attributes : gmap string string;
  el_props : JsObject Fn;
  el_state : JsValue Fn;
  el_innerHTML : string;
  el_renders : nat
}.
Arguments mkElement {Fn}.
Arguments el_definition {Fn}.
Arguments el_custom {Fn}.
Arguments el_attributes {Fn}.
Arguments el_props {Fn}.
Arguments el_state {Fn}.
Arguments el_innerHTML {Fn}.
Arguments el_renders {Fn}.

(** A lifecycle hook of a definition, run with [this] bound to an
    element.  Unlike the template, a hook is there for what it does to
    the element (the README's [mounted] assigns [this.state.count]), so
    running it is a computation on the element. *)
Class JsHooks (Fn : Type) := {
  run_on : Fn -> list (JsValue Fn) -> M (Element Fn) (JsValue Fn)
}.

Section ElementAdapter.
Context {Fn : Type} {engine : JsEngine Fn} {hooks : JsHooks Fn}.
Implicit Types (el : Element Fn).

(** An attribute value as the host reports it: a string or [null]. *)
Definition attr_value (a : option string) : JsValue Fn :=
  match a with
  | Some text => VStr text
  | None => VNull
  end.

(** [this], as a template or a method sees it. *)
Definition this_of el : JsValue Fn :=
  VObj [("props", VObj (el_props el));
        ("state", el_state el);
        ("shadowRoot", VObj [("innerHTML", VStr (el_innerHTML el))])].

(** [constructor()], lines 198-203. *)
Definition construct (definition custom : JsObject Fn) : Element Fn :=
  mkElement definition custom ∅ []
            (js_or (prop definition "initialState") (VObj [])) "" 0.

(** [f.call(this, ...args)] for whatever value [f] is. *)
Definition call_value (what : string) (f : JsValue Fn) (this : JsValue Fn)
    (args : list (JsValue Fn)) : Exc (JsValue Fn) :=
  match f with
  | VFun g => fn_call g this args
  | _ => Raise (TypeError (what +:+ " is not a function"))
  end.

(** A call [this.m(...)]: the loop of lines 241-245 may have put a custom
    [m] on the prototype, which then stands in for the class's own. *)
Definition invoke (m : string) (args : list (JsValue Fn))
    (own : M (Element Fn) unit) : M (Element Fn) unit :=
  let! custom := gets (fun el => obj_get (el_custom el) m) in
  match custom with
  | Some f =>
      let! this := gets this_of in
      let! _ := lift (call_value ("this." +:+ m) f this args) in
      ret tt
  | None => own
  end.

(** Line 230: the style block in front of the markup. *)
Definition style_block (definition : JsObject Fn) : string :=
  let styleText := prop definition "styles" in
  if truthy styleText then "<style>" +:+ js_toString styleText +:+ "</style>" else "".

Definition count_render el : Element Fn :=
  mkElement (el_definition el) (el_custom el) (el_attributes el)
            (el_props el) (el_state el) (el_innerHTML el) (S (el_renders el)).

Definition set_innerHTML (content : string) el : Element Fn :=
  mkElement (el_definition el) (el_custom el) (el_attributes el)
            (el_props el) (el_state el) content (el_renders el).

(** The body of [render()], lines 228-232. *)
Definition render_own : M (Element Fn) unit :=
  modify count_render ;;
  let! el := gets id in
  let! html := lift (call_value "definition.template.call"
                       (prop (el_definition el) "template")
                       (this_of el) [VObj (el_props el); el_state el]) in
  modify (set_innerHTML (style_block (el_definition el) +:+ js_toString html)).

Definition render : M (Element Fn) unit := invoke "render" [] render_own.

Definition with_prop (name : string) (value : JsValue Fn) el : Element Fn :=
  mkElement (el_definition el) (el_custom el) (el_attributes el)
            (obj_set name value (el_props el)) (el_state el) (el_innerHTML el)
            (el_renders el).

(** [this.props[name] = value] *)
Definition set_prop (name : string) (value : JsValue Fn) : M (Element Fn) unit :=
  modify (with_prop name value).

(** The body of [attributeChangedCallback(name, oldValue, newValue)],
    lines 215-220. *)
Definition attributeChangedCallback_own (name : string) (oldValue newValue : option string)
  : M (Element Fn) unit :=
  if decide (oldValue = newValue) then ret tt
  else set_prop name (attr_value newValue) ;; render.

(** The notification as the host delivers it. *)
Definition attributeChangedCallback (name : string) (oldValue newValue : option string)
  : M (Element Fn) unit :=
  invoke "attributeChangedCallback"
         [VStr name; attr_value oldValue; attr_value newValue]
         (attributeChangedCallback_own name oldValue newValue).

(** The call [this.getAttribute(p)] of line 224: the element's own
    [getAttribute], unless the loop of lines 241-245 has put a custom
    method of that name on the prototype. *)
Definition getAttribute (p : JsValue Fn) : M (Element Fn) (JsValue Fn) :=
  let! custom := gets (fun el => obj_get (el_custom el) "getAttribute") in
  match custom with
  | Some f =>
      let! this := gets this_of in
      lift (call_value "this.getAttribute" f this [p])
  | None => gets (fun el => attr_value (el_attributes el !! js_toString p))
  end.

(** The body of [updateProps()], lines 222-226. *)
Definition updateProps_own : M (Element Fn) unit :=
  let! el := gets id in
  match js_or (prop (el_definition el) "props") (VArr []) with
  | VArr items =>
      fold_right (fun p rest =>
                    let! value := getAttribute p in
                    set_prop (js_toString p) (js_or value (VStr "")) ;; rest)
                 (ret tt) items
  | _ => throw (TypeError "(definition.props || []).forEach is not a function")
  end.

Definition updateProps : M (Element Fn) unit := invoke "updateProps" [] updateProps_own.

(** The body of [connectedCallback()], lines 209-213. *)
Definition connectedCallback_own : M (Element Fn) unit :=
  updateProps ;;
  render ;;
  let! el := gets id in
  let mounted := prop (el_definition el) "mounted" in
  if truthy mounted
  then match mounted with
       | VFun hook => let! _ := run_on hook [] in ret tt
       | _ => throw (TypeError "definition.mounted.call is not a function")
       end
  else ret tt.

Definition connectedCallback : M (Element Fn) unit :=
  invoke "connectedCallback" [] connectedCallback_own.

(** The body of [setState(newState)], lines 234-237. *)
Definition setState_own (newState : JsValue Fn) : M (Element Fn) unit :=
  modify (fun el => mkElement (el_definition el) (el_custom el) (el_attributes el)
                      (el_props el)
                      (VObj (obj_literal (own_entries (el_state el) ++ own_entries newState)))
                      (el_innerHTML el) (el_renders el)) ;;
  render.

Definition setState (newState : JsValue Fn) : M (Element Fn) unit :=
  invoke "setState" [newState] (setState_own newState).

(** [new cls()] for a class made by [registerWebComponent]. *)
Definition instantiate (cls : ElementClass Fn) : option (Element Fn) :=
  match cls with
  | GeneratedComponent definition custom => Some (construct definition custom)
  | ScriptComponent _ => None
  end.

(** An element of class [cls] written in markup with the attributes
    [attrs], once it is in the document. *)
Definition mount (cls : ElementClass Fn) (attrs : gmap string string)
  : option (Outcome (Element Fn) unit) :=
  match instantiate cls with
  | Some el =>
      Some (connectedCallback
              (mkElement (el_definition el) (el_custom el) attrs (el_props el)
                         (el_state el) (el_innerHTML el) (el_renders el)))
  | None => None
  end.

(** [setAttribute(name, value)] on a connected element whose class
    observes [name]: the attribute is written, then the host notifies. *)
Definition setAttribute (name value : string) : M (Element Fn) unit :=
  let! old := gets (fun el => el_attributes el !! name) in
  modify (fun el => mkElement (el_definition el) (el_custom el)
                      (<[name := value]> (el_attributes el))
                      (el_props el) (el_state el) (el_innerHTML el) (el_renders el)) ;;
  attributeChangedCallback name old (Some value).
End ElementAdapter.

(* ===================================================================== *)
(** ** MiniJs: an engine for a fragment of JavaScript *)
(* ===================================================================== *)

(** The fragment: single-quoted string literals without escapes, member
    reads [x.f] on a bound identifier, template literals whose
    substitutions are member reads, and arrow functions
    [(p1, p2) => expression] over these.  A function value keeps the text
    it was created from, which is what [toString] returns.  Text that the
    grammar of JavaScript rejects is a [SyntaxError]; text outside the
    fragment is reported as [Unsupported], so that nothing is said about
    it. *)
Module MiniJs.

Inductive Part : Type :=
| Text (cooked : string)
| Subst (object field : string).

Inductive Expr : Type :=
| EStr (text : string)
| EMember (object field : string)
| ETemplate (parts : list Part)
| EArrow (source : string) (params : list string) (body : Expr).

Inductive Fun : Type :=
| mkFun (source : string) (params : list string) (body : Expr)
        (env : list (string * JsValue Fun)).

Definition Unsupported (msg : string) : JsError := mkError "Unsupported" msg.

Definition is_ident_start (c : ascii) : bool :=
  ascii_in "a" "z" c || ascii_in "A" "Z" c || Ascii.eqb c "_" || Ascii.eqb c "$".

Definition is_ident_char (c : ascii) : bool := is_word_char c || Ascii.eqb c "$".

Definition is_ident (s : string) : bool :=
  match s with
  | EmptyString => false
  | String c rest => is_ident_start c && forallb is_ident_char (list_ascii_of_string rest)
  end.

(** Text before and after the first occurrence of [c]. *)
Fixpoint split_at (c : ascii) (s : string) : option (string * string) :=
  match s with
  | EmptyString => None
  | String d rest =>
      if Ascii.eqb d c then Some (EmptyString, rest)
      else match split_at c rest with
           | Some (before, after) => Some (String d before, after)
           | None => None
           end
  end.

(** [object.field] *)
Definition parse_member (s : string) : option (string * string) :=
  match split_at "." s with
  | Some (object, field) =>
      if is_ident object && is_ident field then Some (object, field) else None
  | None => None
  end.

Inductive ScanMode : Type :=
| InText (cooked : string)
| InSubst (code : string).

(** The characters of a template literal after its opening backtick. *)
Fixpoint scan_template (s : string) (done : list Part) (mode : ScanMode) : Exc (list Part) :=
  match s with
  | EmptyString => Raise (SyntaxError "Unterminated template literal")
  | String c rest =>
      match mode with
      | InText cooked =>
          if Ascii.eqb c "`" then
            match rest with
            | EmptyString => Val (done ++ [Text cooked])
            | _ => Raise (Unsupported "text after a template literal")
            end
          else if Ascii.eqb c "\" then
            match rest with
            | String d rest' =>
                if Ascii.eqb d "`" || Ascii.eqb d "\" || Ascii.eqb d "$"
                then scan_template rest' done (InText (cooked +:+ String d ""))
                else Raise (Unsupported "escape sequence")
            | EmptyString => Raise (SyntaxError "Unterminated template literal")
            end
          else if Ascii.eqb c "$" then
            match rest with
            | String "{" rest' => scan_template rest' (done ++ [Text cooked]) (InSubst "")
            | _ => scan_template rest done (InText (cooked +:+ "$"))
            end
          else if N.eqb (N_of_ascii c) 13 then Raise (Unsupported "carriage return")
          else scan_template rest done (InText (cooked +:+ String c ""))
      | InSubst code =>
          if Ascii.eqb c "}" then
            match parse_member code with
            | Some (object, field) =>
                scan_template rest (done ++ [Subst object field]) (InText "")
            | None => Raise (Unsupported "substitution")
            end
          else scan_template rest done (InSubst (code +:+ String c ""))
      end
  end.

(** Characters no expression can begin with. *)
Definition cannot_start_expression (c : ascii) : bool :=
  existsb (Ascii.eqb c)
          ["<"; ">"; ")"; "}"; "]"; "*"; "%"; "="; ","; ";"; "?"; ":"; "&"; "|"; "^"]%char.

Definition parse_simple (s : string) : Exc Expr :=
  match s with
  | EmptyString => Raise (Unsupported "empty expression")
  | String c rest =>
      if Ascii.eqb c "'" then
        match split_at "'" rest with
        | Some (text, EmptyString) =>
            if has_char "\" text || has_char (ascii_of_nat 10) text
               || has_char (ascii_of_nat 13) text
            then Raise (Unsupported "string literal")
            else Val (EStr text)
        | Some _ => Raise (Unsupported "text after a string literal")
        | None => Raise (SyntaxError "Invalid or unexpected token")
        end
      else if Ascii.eqb c "`" then
        let? parts := scan_template rest [] (InText "") in Val (ETemplate parts)
      else if cannot_start_expression c then
        Raise (SyntaxError ("Unexpected token '" +:+ String c "" +:+ "'"))
      else
        match parse_member s with
        | Some (object, field) => Val (EMember object field)
        | None => Raise (Unsupported "expression")
        end
  end.

Fixpoint trim_left (s : string) : string :=
  match s with
  | String " " rest => trim_left rest
  | _ => s
  end.

(** The parameter list between the parentheses of an arrow function. *)
Fixpoint parse_params (fuel : nat) (s : string) : option (list string) :=
  match fuel with
  | O => None
  | S fuel' =>
      match split_at "," s with
      | Some (first, rest) =>
          if is_ident first
          then match parse_params fuel' (trim_left rest) with
               | Some more => Some (first :: more)
               | None => None
               end
          else None
      | None => if is_ident s then Some [s] else None
      end
  end.

Definition parse_expr (s : string) : Exc Expr :=
  match s with
  | String "(" rest =>
      match split_at ")" rest with
      | Some (paramText, afterParams) =>
          match (if String.eqb paramText "" then Some []
                 else parse_params (S (String.length paramText)) paramText) with
          | Some params =>
              if startsWith afterParams " => "
              then let? body := parse_simple (String.substring 4 (String.length afterParams - 4)
                                                               afterParams) in
                   Val (EArrow s params body)
              else Raise (Unsupported "parenthesised expression")
          | None => Raise (Unsupported "parenthesised expression")
          end
      | None => Raise (Unsupported "parenthesised expression")
      end
  | _ => parse_simple s
  end.

Definition lookup_var (env : list (string * JsValue Fun)) (x : string)
  : Exc (JsValue Fun) :=
  match obj_get env x with
  | Some v => Val v
  | None => Raise (Unsupported ("global identifier " +:+ x))
  end.

(** [v.field] for a value [v]. *)
Definition read_member (v : JsValue Fun) (field : string) : Exc (JsValue Fun) :=
  match v with
  | VObj fields => Val (prop fields field)
  | VUndefined | VNull =>
      Raise (TypeError ("Cannot read properties of undefined (reading '" +:+ field +:+ "')"))
  | _ => Raise (Unsupported "member of a primitive, an array or a function")
  end.

Definition source_of (f : Fun) : string :=
  match f with
  | mkFun source _ _ _ => source
  end.

Definition eval (env : list (string * JsValue Fun)) (e : Expr) : Exc (JsValue Fun) :=
  match e with
  | EStr text => Val (VStr text)
  | EMember object field =>
      let? base := lookup_var env object in read_member base field
  | ETemplate parts =>
      let? text :=
        exc_fold (fun acc part =>
                    match part with
                    | Text cooked => Val (acc +:+ cooked)
                    | Subst object field =>
                        let? base := lookup_var env object in
                        let? v := read_member base field in
                        Val (acc +:+ value_text source_of v)
                    end) "" parts in
      Val (VStr text)
  | EArrow source params body => Val (VFun (mkFun source params body env))
  end.

(** Parameters bound to arguments; a missing argument is [undefined]. *)
Fixpoint bind_params (params : list string) (args : list (JsValue Fun))
  : list (string * JsValue Fun) :=
  match params with
  | [] => []
  | p :: params' =>
      match args with
      | a :: args' => (p, a) :: bind_params params' args'
      | [] => (p, VUndefined) :: bind_params params' []
      end
  end.

Definition call (f : Fun) (this : JsValue Fun) (args : list (JsValue Fun))
  : Exc (JsValue Fun) :=
  match f with
  | mkFun _ params body env => eval (bind_params params args ++ env) body
  end.

(** [new Function(p1, ..., pn, body)] for a body [return <expression>]. *)
Definition make_function (params : list string) (body : string) : Exc Fun :=
  if negb (forallb is_ident params) then Raise (Unsupported "parameter name")
  else if startsWith body "return " then
    let? result := parse_expr (String.substring 7 (String.length body - 7) body) in
    Val (mkFun ("function anonymous(" +:+ join "," params +:+ nl +:+ ") {" +:+ nl
                +:+ body +:+ nl +:+ "}")
               params result [])
  else Raise (Unsupported "function body").

#[export] Instance engine : JsEngine Fun := {|
  fn_toString := source_of;
  new_Function := make_function;
  fn_call := call
|}.

(** A function of the fragment has no assignment in it: run as a hook
    it leaves the element as it is. *)
#[export] Instance hooks : JsHooks Fun := {|
  run_on := fun f args el =>
    match call f (this_of el) args with
    | Val v => Return v el
    | Raise e => Throw e el
    end
|}.

(** A character that stands for itself inside a template literal, the
    backtick apart. *)
Definition plain_char (c : ascii) : bool :=
  negb (Ascii.eqb c "\" || Ascii.eqb c "$" || N.eqb (N_of_ascii c) 13).

Definition plain_text (s : string) : bool :=
  forallb plain_char (list_ascii_of_string s).

(** The value of the expression [source], evaluated at top level. *)
Definition evaluate (source : string) : Exc (JsValue Fun) :=
  let? e := parse_expr source in eval [] e.

End MiniJs.

(* ===================================================================== *)
(** ** Two contexts to run the builder in *)
(* ===================================================================== *)

Section Fixtures.
Import MiniJs.

(** The value of a JavaScript literal of the fragment. *)
Definition js (source : string) : JsValue Fun :=
  match evaluate source with
  | Val v => v
  | Raise _ => VUndefined
  end.

(** What a browser asks of a custom-element name, in short: it starts
    with a lower-case letter, has a hyphen and no upper-case letter. *)
Definition element_name_ok (name : string) : bool :=
  match name with
  | EmptyString => false
  | String c _ =>
      ascii_in "a" "z" c && has_char hyphen name
      && forallb (fun d => negb (ascii_in "A" "Z" d)) (list_ascii_of_string name)
  end.

(** A realm with nothing registered, at time [now]; the network is down
    and no JSON document is known (the examples import objects). *)
Definition offline_realm (now : Z) : Realm Fun :=
  mkRealm ∅ ∅ [] [] now element_name_ok
          (fun _ => Raise (TypeError "Failed to fetch"))
          (fun _ => Raise (SyntaxError "Unexpected end of JSON input")).

(** [new ComponentBuilder(options)] in such a realm. *)
Definition start (options : JsObject Fun) (now : Z) : State Fun :=
  mkState (new_builder options) (offline_realm now).

(** The definition of the test suite's [test-component]. *)
Definition test_definition : JsObject Fun :=
  [("props", VArr [VStr "title"]);
   ("template", js "(props, state) => `<div>${props.title}</div>`");
   ("styles", VStr "div { color: red; }")].

(** The state after [builder.define('test-component', ...)]. *)
Definition defined_state : State Fun :=
  final (define "test-component" test_definition (start [] 1000)).

(** A record whose method [label] is the text of a string, not of a
    function. *)
Definition inert_method_record : JsObject Fun :=
  [("name", VStr "label-widget"); ("props", VArr [VStr "title"]);
   ("template", VStr "(props, state) => `<div>${props.title}</div>`");
   ("styles", VStr ""); ("methods", VObj [("label", VStr "'just text'")])].

(** A record whose method [label] is text no expression begins with. *)
Definition broken_method_record : JsObject Fun :=
  [("name", VStr "broken-widget"); ("props", VArr [VStr "title"]);
   ("template", VStr "(props, state) => `<div>${props.title}</div>`");
   ("styles", VStr ""); ("methods", VObj [("label", VStr "<b>")])].

(** [test-component] with a method named [render]. *)
Definition shadowing_definition : JsObject Fun :=
  test_definition ++ [("methods", VObj [("render", js "() => ''")])].

(** A connected element [<... title="A">] for a definition. *)
Definition connected (definition : JsObject Fun) : Element Fun :=
  match mount (make_GeneratedComponent definition) {["title" := "A"]} with
  | Some outcome => final outcome
  | None => construct definition []
  end.
End Fixtures.

(* ===================================================================== *)
(** ** Names for parts of the methods, and more contexts *)
(* ===================================================================== *)

Section Parts.
Context {Fn : Type} {engine : JsEngine Fn}.

(** Line 29 of [define]: the methods in text form, computed before
    anything is written. *)
Definition serialized_for (definition : JsObject Fn) : Exc (JsObject Fn) :=
  if truthy (prop definition "methods")
  then serializeMethods (prop definition "methods") else Val [].

(** The value [updateProps] writes for the observed attribute [key]:
    [this.getAttribute(key) || '']. *)
Definition attribute_or_empty (attrs : gmap string string) (key : string) : JsValue Fn :=
  VStr (default "" (attrs !! key)).

(** The element once [updateProps] has run over the observed names. *)
Definition populated (names : list string) (el : Element Fn) : Element Fn :=
  mkElement (el_definition el) (el_custom el) (el_attributes el)
            (fold_left (fun acc kv => obj_set kv.1 kv.2 acc)
                       (map (fun n => (n, attribute_or_empty (el_attributes el) n)) names)
                       (el_props el))
            (el_state el) (el_innerHTML el) (el_renders el).

(** [{ ...this.state, ...newState }] of line 235. *)
Definition merged_state (state newState : JsValue Fn) : JsObject Fn :=
  obj_literal (own_entries state ++ own_entries newState).

Definition with_state (state : JsValue Fn) (el : Element Fn) : Element Fn :=
  mkElement (el_definition el) (el_custom el) (el_attributes el) (el_props el)
            state (el_innerHTML el) (el_renders el).

(** What [render()] leaves, given what the template call gave. *)
Definition shown (html : JsValue Fn) (el : Element Fn) : Element Fn :=
  set_innerHTML (style_block (el_definition el) +:+ js_toString html) (count_render el).

(** The template call [render()] makes on [el]. *)
Definition template_call (el : Element Fn) : Exc (JsValue Fn) :=
  call_value "definition.template.call" (prop (el_definition el) "template")
             (this_of (count_render el)) [VObj (el_props el); el_state el].

(** The state after [fetch] was called with [req]. *)
Definition requested (req : Request) (s : State Fn) : State Fn :=
  on_realm (fun r => with_fetched (fetched r ++ [req]) r) s.
End Parts.

Section MoreFixtures.
Import MiniJs.

(** A builder with an endpoint, after [define('test-component', ...)]. *)
Definition cloud_state : State Fun :=
  final (define "test-component" test_definition
           (start [("apiEndpoint", VStr "https://api.example.com")] 1000)).

(** The record of the test suite's import tests, with a method. *)
Definition imported_record : JsObject Fun :=
  [("name", VStr "imported-component"); ("version", VStr "1.0.0");
   ("props", VArr [VStr "title"]);
   ("template", VStr "<div>${props.title}</div>");
   ("styles", VStr "div { color: blue; }");
   ("methods", VObj [("label", VStr "() => 'imported'")]);
   ("events", VArr []); ("created", VNum 1)].

(** A counter in the manner of the README: the state seeds [count]. *)
Definition counter_definition : JsObject Fun :=
  [("props", VArr [VStr "step"]);
   ("template", js "(props, state) => `<span>Count: ${state.count}</span>`");
   ("initialState", VObj [("count", VNum 0); ("label", VStr "clicks")])].
End MoreFixtures.

(* ===================================================================== *)
(** * Properties *)
(* ===================================================================== *)

(** ** Name-to-identifier derivation *)

Lemma upper_char_not_word (c : ascii) :
  is_word_char c = false -> upper_char c = c.
Proof.
  unfold is_word_char, upper_char.
  destruct (ascii_in "a" "z" c); simpl; [discriminate | reflexivity].
Qed.

Lemma word_char_not_hyphen (c : ascii) :
  is_word_char c = true -> Ascii.eqb c hyphen = false.
Proof.
  destruct (Ascii.eqb c hyphen) eqn:E; [| reflexivity].
  apply Ascii.eqb_eq in E. subst c. vm_compute. discriminate.
Qed.

Lemma upper_char_not_hyphen (c : ascii) :
  Ascii.eqb c hyphen = false -> Ascii.eqb (upper_char c) hyphen = false.
Proof.
  destruct c as [[] [] [] [] [] [] [] []]; vm_compute; congruence.
Qed.

Lemma append_nil_l (s : string) : "" +:+ s = s.
Proof. reflexivity. Qed.

Lemma append_cons (c : ascii) (s t : string) : String c s +:+ t = String c (s +:+ t).
Proof. reflexivity. Qed.

Create Rewrite HintDb strapp.
#[local] Hint Rewrite append_nil_l append_cons : strapp.

Ltac sapp := autorewrite with strapp in *.

Lemma string_app_empty_r (s : string) : s +:+ "" = s.
Proof. induction s as [| c s IH]; sapp; [reflexivity | now rewrite IH]. Qed.

Lemma string_app_assoc (s t u : string) : (s +:+ t) +:+ u = s +:+ (t +:+ u).
Proof. induction s as [| c s IH]; sapp; [reflexivity | now rewrite IH]. Qed.

Lemma capitalize_app (cur rest : string) :
  cur <> "" -> capitalize (cur +:+ rest) = capitalize cur +:+ rest.
Proof. destruct cur; [congruence | reflexivity]. Qed.

Lemma concat_cons_split (x cur : string) (s : string) :
  String.concat "" (x :: map capitalize (split_hyphen cur s))
  = x +:+ String.concat "" (map capitalize (split_hyphen cur s)).
Proof.
  destruct (split_hyphen cur s) eqn:E.
  - destruct s; simpl in E; [discriminate |].
    destruct (Ascii.eqb a hyphen); [discriminate |].
    exfalso. revert E. generalize (cur +:+ String a ""). clear.
    induction s as [| c s IH]; intros cur' E; simpl in E; [discriminate |].
    destruct (Ascii.eqb c hyphen); [discriminate | eauto].
  - reflexivity.
Qed.

(** Splitting, capitalising and concatenating is the character walk. *)
Lemma pascal_spec_walk (s : string) :
  (forall cur, cur <> "" ->
     String.concat "" (map capitalize (split_hyphen cur s))
     = capitalize cur +:+ spec_walk false s)
  /\ String.concat "" (map capitalize (split_hyphen "" s)) = spec_walk true s.
Proof.
  induction s as [| c s [IH1 IH2]].
  - split; [intros cur _; simpl; now rewrite string_app_empty_r | reflexivity].
  - cbn [split_hyphen spec_walk].
    destruct (Ascii.eqb c hyphen) eqn:E.
    + split.
      * intros cur _. cbn [map]. rewrite concat_cons_split, IH2. reflexivity.
      * cbn [map]. rewrite concat_cons_split, IH2. reflexivity.
    + split.
      * intros cur Hcur. rewrite IH1.
        -- rewrite capitalize_app by exact Hcur.
           rewrite string_app_assoc. reflexivity.
        -- destruct cur; sapp; congruence.
      * rewrite IH1 by (sapp; congruence). reflexivity.
Qed.

Lemma scan_is_walk (s : string) :
  hyphens_lead_words s = true -> forall b, pascal_scan b s = spec_walk b s.
Proof.
  induction s as [| c s IH]; intros H b; [reflexivity |].
  simpl in H. apply andb_true_iff in H as [Hc Hs].
  specialize (IH Hs). simpl.
  destruct (Ascii.eqb c hyphen) eqn:E.
  - assert (Hw : is_word_char c = false).
    { apply Ascii.eqb_eq in E. subst c. reflexivity. }
    rewrite Hw, andb_false_r.
    destruct s as [| d s']; [discriminate |].
    rewrite Hc. simpl.
    rewrite (word_char_not_hyphen d Hc).
    pose proof (IH false) as IHf. simpl in IHf.
    rewrite (word_char_not_hyphen d Hc) in IHf.
    injection IHf as IHf. rewrite IHf. reflexivity.
  - destruct b; simpl.
    + destruct (is_word_char c) eqn:Hw.
      * rewrite IH. reflexivity.
      * rewrite IH, (upper_char_not_word c Hw). reflexivity.
    + rewrite IH. reflexivity.
Qed.

Lemma walk_has_no_hyphen (s : string) :
  forall b, has_char hyphen (spec_walk b s) = false.
Proof.
  induction s as [| c s IH]; intros b; simpl; [reflexivity |].
  destruct (Ascii.eqb c hyphen) eqn:E; [apply IH |].
  simpl. rewrite IH, orb_false_r.
  destruct b; [apply upper_char_not_hyphen |]; exact E.
Qed.

Lemma scan_keeps_stray_hyphen (s : string) :
  hyphens_lead_words s = false -> forall b, has_char hyphen (pascal_scan b s) = true.
Proof.
  induction s as [| c s IH]; intros H b; [discriminate |].
  simpl in H. simpl.
  destruct (Ascii.eqb c hyphen) eqn:E.
  - assert (Hw : is_word_char c = false).
    { apply Ascii.eqb_eq in E. subst c. reflexivity. }
    rewrite Hw, andb_false_r.
    destruct s as [| d s'].
    + simpl. now rewrite E.
    + destruct (is_word_char d) eqn:Hd.
      * simpl in H. specialize (IH H false).
        cbn [pascal_scan] in IH. simpl andb in IH.
        rewrite (word_char_not_hyphen d Hd) in IH.
        cbn [has_char] in IH. rewrite (word_char_not_hyphen d Hd) in IH.
        simpl in IH. cbn [has_char].
        rewrite IH. apply orb_true_r.
      * cbn [has_char]. now rewrite E.
  - simpl in H. specialize (IH H false).
    destruct (b && is_word_char c); cbn [has_char]; rewrite IH; apply orb_true_r.
Qed.

(** C9 (the code at the failing input).  The derivation the claim
    describes gives [AB] for the name [a--b]; the regular expression of
    line 280 misses the hyphen that is followed by a hyphen, and
    [toPascalCase] returns [A-B]. *)
Lemma toPascalCase_double_hyphen :
  toPascalCase "a--b" = "A-B" /\ pascal_spec "a--b" = "AB"
  /\ toPascalCase "a--b" <> pascal_spec "a--b".
Proof. repeat split; vm_compute; congruence. Qed.

(** Where the code does what the derivation says: on the names in which
    every hyphen is immediately followed by a word character, and only
    on those; the three names of the test suite are among them. *)
Theorem toPascalCase_split_capitalize :
  (forall name : string,
      toPascalCase name = pascal_spec name <-> hyphens_lead_words name = true)
  /\ toPascalCase "my-component" = "MyComponent"
  /\ toPascalCase "test-component-name" = "TestComponentName"
  /\ toPascalCase "simple" = "Simple".
Proof.
  split; [| repeat split; reflexivity].
  intros name. unfold toPascalCase, pascal_spec.
  rewrite (proj2 (pascal_spec_walk name)).
  split.
  - intros Heq. destruct (hyphens_lead_words name) eqn:H; [reflexivity |].
    pose proof (scan_keeps_stray_hyphen name H true) as Hscan.
    rewrite Heq, walk_has_no_hyphen in Hscan. discriminate.
  - intros H. apply scan_is_walk. exact H.
Qed.

(** ** The Definition Store and [define] *)

Ltac run :=
  cbv beta match delta [bind ret throw gets modify lift in_realm Date_now].

Section DefineProperties.
Context {Fn : Type} {engine : JsEngine Fn}.

Lemma prop_missing (o : JsObject Fn) (k : string) :
  obj_get o k = None -> prop o k = VUndefined.
Proof. unfold prop. now intros ->. Qed.


Lemma registerWebComponent_builder (name : string) (definition : JsObject Fn)
    (s : State Fn) :
  builder (final (registerWebComponent name definition s)) = builder s.
Proof.
  unfold registerWebComponent, customElements_define. run.
  destruct (customElements (realm s) !! name); [reflexivity |].
  destruct (validName (realm s) name); reflexivity.
Qed.

Lemma registerWebComponent_returns (name : string) (definition : JsObject Fn)
    (s : State Fn) :
  validName (realm s) name = true \/ is_Some (customElements (realm s) !! name) ->
  exists s', registerWebComponent name definition s = Return tt s'
             /\ builder s' = builder s.
Proof.
  intros H. unfold registerWebComponent, customElements_define. run.
  destruct (customElements (realm s) !! name) eqn:E; [eauto |].
  destruct H as [H | [? H]]; [| discriminate].
  rewrite H. eauto.
Qed.
End DefineProperties.

(** C10.  When the definition has no [template] field, [define] throws
    and the state it leaves is the state it found: the Definition Store
    has no new entry and an old one is untouched, and no element is
    registered. *)
Theorem define_without_template_throws {Fn : Type} {engine : JsEngine Fn}
    (name : string) (definition : JsObject Fn) (s : State Fn) :
  obj_get definition "template" = None ->
  exists e, define name definition s = Throw e s.
Proof.
  intros H. unfold define. run.
  destruct (if truthy (prop definition "methods")
            then serializeMethods (prop definition "methods") else Val []);
    cbn beta iota; [| eauto].
  rewrite (prop_missing _ _ H). cbn. eauto.
Qed.

Lemma define_without_template_witness :
  obj_get (Fn := MiniJs.Fun) [("props", VArr [VStr "title"])] "template" = None
  /\ exists e, define (engine := MiniJs.engine) "no-template"
                 [("props", VArr [VStr "title"])] (start [] 1000)
               = Throw e (start [] 1000).
Proof.
  split; [reflexivity |].
  apply (define_without_template_throws (engine := MiniJs.engine)). reflexivity.
Defined.

(** C7.  A definition that supplies only a template function yields the
    record with the defaults: version ["1.0.0"], no props, empty styles,
    an empty methods object, no events.  That record is what [define]
    stores under the name and what it returns; it does return when the
    host accepts the name or the name is registered already. *)
Theorem define_fills_defaults {Fn : Type} {engine : JsEngine Fn}
    (name : string) (f : Fn) (s : State Fn) :
  exists record,
    registry (builder (final (define name [("template", VFun f)] s))) !! name = Some record
    /\ (forall r s', define name [("template", VFun f)] s = Return r s' -> r = record)
    /\ (validName (realm s) name = true \/ is_Some (customElements (realm s) !! name) ->
        exists s', define name [("template", VFun f)] s = Return record s')
    /\ prop record "version" = VStr "1.0.0"
    /\ prop record "props" = VArr []
    /\ prop record "styles" = VStr ""
    /\ prop record "methods" = VObj []
    /\ prop record "events" = VArr []
    /\ prop record "template" = VStr (fn_toString f).
Proof.
  set (definition := [("template", VFun f)]).
  set (record := componentDef_of name definition [] (fn_toString f) (clock (realm s))).
  exists record.
  assert (Hdef : define name definition s
                 = (registerWebComponent name definition ;; ret record)
                     (set_registry name record s)) by reflexivity.
  rewrite Hdef. clear Hdef. unfold bind, ret.
  pose proof (registerWebComponent_builder name definition (set_registry name record s)) as Hb.
  split; [| split; [| split]].
  - destruct (registerWebComponent name definition (set_registry name record s));
      cbn in Hb |- *; rewrite Hb; cbn; apply lookup_insert_eq.
  - intros r s'.
    destruct (registerWebComponent name definition (set_registry name record s));
      cbn; [intros [= <- _]; reflexivity | discriminate].
  - intros H.
    destruct (registerWebComponent_returns name definition (set_registry name record s) H)
      as (s' & -> & _).
    cbn. eauto.
  - repeat split; reflexivity.
Qed.

(** C4 (the code at the failing input).  The filter of line 40 lets
    [created] and [name] through, so the spread writes them over the
    values the literal has just set: defined at time 1000 under the name
    [my-card], the record carries the supplied [created] 5 and the
    supplied name. *)
Theorem define_created_is_overwritten :
  exists record s',
    define (engine := MiniJs.engine) "my-card"
      [("template", js "(props, state) => '<div>test</div>'");
       ("created", VNum 5); ("name", VStr "other-name")]
      (start [] 1000)
    = Return record s'
    /\ clock (realm (start [] 1000)) = 1000%Z
    /\ prop record "created" = VNum 5
    /\ prop record "name" = VStr "other-name"
    /\ registry (builder s') !! "my-card" = Some record.
Proof.
  eexists. eexists. split; [vm_compute; reflexivity |].
  repeat split; vm_compute; reflexivity.
Qed.

Section Spread.
Context {Fn : Type} {engine : JsEngine Fn}.
Implicit Types (o : JsObject Fn) (k : string).

Lemma obj_get_set o k k' (v : JsValue Fn) :
  obj_get (obj_set k v o) k' = if String.eqb k k' then Some v else obj_get o k'.
Proof.
  induction o as [| [k0 v0] o IH]; simpl.
  - reflexivity.
  - destruct (String.eqb k0 k) eqn:E0; simpl.
    + apply String.eqb_eq in E0. subst k0.
      destruct (String.eqb k k'); reflexivity.
    + destruct (String.eqb k0 k') eqn:E1; [| exact IH].
      apply String.eqb_eq in E1. subst k0.
      now rewrite String.eqb_sym, E0.
Qed.

Lemma obj_get_literal (entries : list (string * JsValue Fn)) :
  forall o k,
    obj_get (fold_left (fun acc kv => obj_set kv.1 kv.2 acc) entries o) k
    = match last_entry k entries with
      | Some w => Some w
      | None => obj_get o k
      end.
Proof.
  induction entries as [| [k0 v0] rest IH]; intros o k; simpl; [reflexivity |].
  rewrite IH. destruct (last_entry k rest); [reflexivity |].
  rewrite obj_get_set. now destruct (String.eqb k0 k).
Qed.

Lemma last_entry_app k (front back : list (string * JsValue Fn)) :
  last_entry k (front ++ back)
  = match last_entry k back with
    | Some w => Some w
    | None => last_entry k front
    end.
Proof.
  induction front as [| [k0 v0] front IH]; simpl.
  - now destruct (last_entry k back).
  - rewrite IH. now destruct (last_entry k back).
Qed.

Lemma last_entry_absent k (entries : list (string * JsValue Fn)) :
  ~ In k (map fst entries) -> last_entry k entries = None.
Proof.
  induction entries as [| [k0 v0] rest IH]; simpl; [reflexivity |].
  intros Hnot. rewrite IH by tauto.
  destruct (String.eqb k0 k) eqn:E; [| reflexivity].
  apply String.eqb_eq in E. tauto.
Qed.

Lemma filter_keys_subset k (entries : list (string * JsValue Fn)) :
  In k (map fst (List.filter kept_by_filter entries)) -> In k (map fst entries).
Proof.
  induction entries as [| kv rest IH]; simpl; [tauto |].
  destruct (kept_by_filter kv); simpl; tauto.
Qed.

Lemma last_entry_kept k (v : JsValue Fn) (definition : JsObject Fn) :
  List.NoDup (map fst definition) ->
  obj_get definition k = Some v ->
  kept_by_filter (k, v) = true ->
  last_entry k (List.filter kept_by_filter definition) = Some v.
Proof.
  induction definition as [| [k0 v0] rest IH]; simpl; [discriminate |].
  intros Hnodup Hget Hkept. inversion Hnodup as [| ? ? Hfresh Hrest]; subst.
  destruct (String.eqb k0 k) eqn:E.
  - apply String.eqb_eq in E. subst k0. injection Hget as ->.
    rewrite Hkept. simpl.
    rewrite last_entry_absent, String.eqb_refl; [reflexivity |].
    intros Hin. apply Hfresh. now apply filter_keys_subset.
  - specialize (IH Hrest Hget Hkept).
    destruct (kept_by_filter (k0, v0)); simpl; now rewrite IH.
Qed.

(** X19.  What the spread of line 40 does to every key the filter lets
    through: the record carries the supplied value.  The keys [created]
    and [name] are among them. *)
Lemma define_spread_wins (name : string) (definition serializedMethods : JsObject Fn)
    (templateText : string) (now : Z) k (v : JsValue Fn) :
  List.NoDup (map fst definition) ->
  obj_get definition k = Some v ->
  kept_by_filter (k, v) = true ->
  prop (componentDef_of name definition serializedMethods templateText now) k = v.
Proof.
  intros Hnodup Hget Hkept. unfold prop, componentDef_of, obj_literal.
  rewrite obj_get_literal, last_entry_app, (last_entry_kept k v definition Hnodup Hget Hkept).
  reflexivity.
Qed.

Lemma created_and_name_pass_the_filter (v : JsValue Fn) :
  kept_by_filter ("created", v) = true /\ kept_by_filter ("name", v) = true.
Proof. split; reflexivity. Qed.
End Spread.

(** ** [export] and [import]: what fails before any work is done *)

(** C6.  For a name the Definition Store does not hold, [export] throws
    the error whose message is [Component <name> not found], whatever
    the options; nothing is changed. *)
Theorem export_unknown_name_not_found {Fn : Type} {engine : JsEngine Fn}
    (componentName : string) (options : JsObject Fn) (s : State Fn) :
  registry (builder s) !! componentName = None ->
  export componentName options s
  = Throw (mkError "Error" ("Component " +:+ componentName +:+ " not found")) s.
Proof. intros H. unfold export. run. now rewrite H. Qed.

Lemma export_unknown_name_witness :
  registry (builder (start [] 1000)) !! "non-existent" = None
  /\ export (engine := MiniJs.engine) "non-existent" [("type", VStr "script")] (start [] 1000)
     = Throw (mkError "Error" "Component non-existent not found") (start [] 1000).
Proof.
  split; [reflexivity |].
  apply (export_unknown_name_not_found (engine := MiniJs.engine)). reflexivity.
Defined.

Lemma type_is_exclusive {Fn : Type} (options : JsObject Fn) :
  type_is options "cloud" = true -> type_is options "script" = false.
Proof.
  unfold type_is. destruct (prop options "type"); try discriminate.
  intros H. apply String.eqb_eq in H. now subst.
Qed.

(** C5 (counterexample).  With no endpoint configured, a cloud export of
    a name that was never defined fails with the not-found error, not
    with the configuration error; and the name [http-widget], which
    line 99 takes for a URL, is fetched. *)
Lemma cloud_export_unknown_name :
  truthy (apiEndpoint (start [] 1000)) = false
  /\ export (engine := MiniJs.engine) "never-defined" [("type", VStr "cloud")] (start [] 1000)
     = Throw (not_found "never-defined") (start [] 1000)
  /\ not_found "never-defined" <> not_configured
  /\ fetched (realm (final (import (engine := MiniJs.engine) (VStr "http-widget") []
                              (start [] 1000))))
     = [mkRequest "http-widget" "GET" None].
Proof. repeat split; vm_compute; congruence. Qed.

(** C5 (amended).  With no endpoint configured, [export] with type
    ['cloud'] of a name the Definition Store holds, and [import] of a
    string that starts neither with [http] nor with an opening brace,
    both throw [API endpoint not configured] and leave the state as it
    was; in particular no [fetch] was issued. *)
Theorem cloud_without_endpoint_fails_first {Fn : Type} {engine : JsEngine Fn}
    (s : State Fn) :
  truthy (apiEndpoint s) = false ->
  (forall componentName options component,
      registry (builder s) !! componentName = Some component ->
      type_is options "cloud" = true ->
      export componentName options s = Throw not_configured s)
  /\ (forall text options,
         startsWith text "http" = false ->
         startsWith text "{" = false ->
         import (VStr text) options s = Throw not_configured s)
  /\ (forall componentData, saveToCloud componentData s = Throw not_configured s)
  /\ (forall componentName, loadFromCloud componentName s = Throw not_configured s).
Proof.
  intros Hno. repeat split.
  - intros componentName options component Hfound Hcloud.
    unfold export. run. rewrite Hfound. cbn beta iota.
    rewrite (type_is_exclusive _ Hcloud), Hcloud. run.
    rewrite Hno. reflexivity.
  - intros text options Hhttp Hbrace.
    unfold import. run. rewrite Hhttp, Hbrace. run.
    rewrite Hno. reflexivity.
  - intros componentData. unfold saveToCloud. run. now rewrite Hno.
  - intros componentName. unfold loadFromCloud. run. now rewrite Hno.
Qed.

Lemma cloud_without_endpoint_witness :
  truthy (apiEndpoint defined_state) = false
  /\ export (engine := MiniJs.engine) "test-component" [("type", VStr "cloud")] defined_state
     = Throw not_configured defined_state
  /\ import (engine := MiniJs.engine) (VStr "test-component") [] defined_state
     = Throw not_configured defined_state.
Proof.
  assert (Hno : truthy (apiEndpoint defined_state) = false) by reflexivity.
  destruct (cloud_without_endpoint_fails_first (engine := MiniJs.engine) defined_state Hno)
    as (Hexport & Himport & _).
  split; [exact Hno |]. split.
  - eapply Hexport; vm_compute; reflexivity.
  - apply Himport; reflexivity.
Defined.

(** ** Registering a name twice *)

Section Registration.
Context {Fn : Type} {engine : JsEngine Fn}.

Lemma import_object (data : JsObject Fn) (options : JsObject Fn) (s : State Fn) :
  import (VObj data) options s = registerFromData (VObj data) options s.
Proof. reflexivity. Qed.


End Registration.





(** ** Reconstruction *)

Lemma exc_fold_raises {A B : Type} (f : B -> A -> Exc B) (x : A) (xs : list A) :
  In x xs -> (forall acc, exists e, f acc x = Raise e) ->
  forall acc, exists e, exc_fold f acc xs = Raise e.
Proof.
  intros Hin Hx. induction xs as [| y ys IH]; intros acc; [destruct Hin |].
  simpl. destruct Hin as [-> | Hin].
  - destruct (Hx acc) as [e ->]. simpl. eauto.
  - destruct (f acc y) as [acc' | e]; simpl; [apply (IH Hin) | eauto].
Qed.

Lemma own_entries_truthy {Fn : Type} (v : JsValue Fn) (kv : string * JsValue Fn) :
  In kv (own_entries v) -> truthy v = true.
Proof.
  destruct v as [| | b | n | t | items | fields | f]; simpl; try contradiction;
    try reflexivity.
  destruct t; [contradiction | reflexivity].
Qed.

(** C2 (counterexample).  The method text ['just text'] is not the text
    of a function, yet [import] accepts the record: it returns the name,
    the element is registered and the record is stored.  And where a
    method's text is rejected, what [import] throws is the engine's
    [SyntaxError]. *)
Lemma import_accepts_inert_method :
  ~ is_function_source (engine := MiniJs.engine) "'just text'"
  /\ (exists s',
        import (engine := MiniJs.engine) (VObj inert_method_record) [] (start [] 1000)
        = Return (VStr "label-widget") s'
        /\ is_Some (customElements (realm s') !! "label-widget")
        /\ registry (builder s') !! "label-widget" = Some inert_method_record)
  /\ (exists e s',
        import (engine := MiniJs.engine) (VObj broken_method_record) [] (start [] 1000)
        = Throw e s'
        /\ err_name e = "SyntaxError").
Proof.
  split; [| split].
  - intros [f H]. vm_compute in H. discriminate.
  - eexists. split; [vm_compute; reflexivity |].
    split; [eexists |]; vm_compute; reflexivity.
  - do 2 eexists. split; vm_compute; reflexivity.
Qed.

(** C2 (amended).  When the engine rejects [return <source>] for one of
    the record's methods, or throws on evaluating it, [import] throws
    and leaves the state as it found it: no element is registered and no
    record is stored.  What is thrown is an error of the engine or of
    the language; nothing in it is added to name the method. *)
Theorem import_fails_when_method_fails {Fn : Type} {engine : JsEngine Fn}
    (data options : JsObject Fn) (methodName : string) (source : JsValue Fn)
    (e : JsError) (s : State Fn) :
  In (methodName, source) (own_entries (prop data "methods")) ->
  compile_method source = Raise e ->
  exists e',
    import (VObj data) options s = Throw e' s
    /\ registerFromData (VObj data) options s = Throw e' s.
Proof.
  intros Hin Hc. rewrite import_object. unfold registerFromData. run.
  assert (Hrec : exists e', reconstruct data options = Raise e').
  { unfold reconstruct.
    destruct (prop data "template") as [| | b | n | text | items | fields | f];
      try (eexists; reflexivity).
    destruct (compile_template text) as [template | e0]; [| cbn; eauto].
    cbn [exc_bind]. unfold reconstruct_methods.
    rewrite (own_entries_truthy _ _ Hin).
    match goal with
    | |- context [exc_fold ?f ?a ?xs] =>
        assert (Hfold : forall acc, exists e, exc_fold f acc xs = Raise e)
    end.
    { apply (exc_fold_raises _ (methodName, source)); [exact Hin |].
      intros acc. cbn. rewrite Hc. cbn. eauto. }
    match goal with
    | |- context [exc_fold ?f ?a ?xs] => destruct (Hfold a) as [e' He']
    end.
    rewrite He'. cbn. eauto. }
  destruct Hrec as (e' & ->). exists e'. split; reflexivity.
Qed.

Lemma import_fails_witness :
  In ("label", VStr "<b>") (own_entries (prop broken_method_record "methods"))
  /\ (exists e, compile_method (engine := MiniJs.engine) (VStr "<b>") = Raise e)
  /\ exists e',
       import (engine := MiniJs.engine) (VObj broken_method_record) [] (start [] 1000)
       = Throw e' (start [] 1000).
Proof.
  assert (Hin : In ("label", VStr (Fn := MiniJs.Fun) "<b>")
                   (own_entries (prop broken_method_record "methods")))
    by (left; reflexivity).
  split; [exact Hin |]. split; [eexists; vm_compute; reflexivity |].
  destruct (import_fails_when_method_fails (engine := MiniJs.engine)
              broken_method_record [] "label" (VStr "<b>")
              (SyntaxError "Unexpected token '<'") (start [] 1000) Hin eq_refl)
    as (e' & Himport & _).
  exists e'. exact Himport.
Defined.

(** ** The round trip through [define] and [import] *)

Section RoundTrip.
Import MiniJs.

Lemma scan_escaped_plain (s : string) :
  plain_text s = true ->
  forall done cooked,
    scan_template (escape_backticks s +:+ "`") done (InText cooked)
    = Val (done ++ [Text (cooked +:+ s)]).
Proof.
  unfold plain_text.
  induction s as [| c s IH]; intros Hplain done cooked.
  - cbn. now rewrite string_app_empty_r.
  - cbn [list_ascii_of_string forallb] in Hplain.
    apply andb_true_iff in Hplain as [Hc Hs]. specialize (IH Hs).
    unfold plain_char in Hc. apply negb_true_iff in Hc.
    apply orb_false_iff in Hc as [Hc Hcr]. apply orb_false_iff in Hc as [Hbs Hdollar].
    cbn [escape_backticks].
    destruct (Ascii.eqb c "`") eqn:Etick.
    + apply Ascii.eqb_eq in Etick. subst c.
      sapp. cbn [scan_template]. cbn [Ascii.eqb Bool.eqb orb andb].
      rewrite IH. rewrite string_app_assoc. reflexivity.
    + sapp. cbn [scan_template]. rewrite Etick, Hbs, Hdollar, Hcr.
      rewrite IH. rewrite string_app_assoc. reflexivity.
Qed.

Lemma substring_all (s : string) : String.substring 0 (String.length s) s = s.
Proof. induction s as [| c s IH]; cbn; [reflexivity | now rewrite IH]. Qed.

(** X18.  Whatever function the text came from, when it has no [$], no
    backslash and no carriage return, the template that
    [registerFromData] builds returns that text itself. *)
Lemma reconstructed_template_returns_text (text : string) :
  plain_text text = true ->
  exists g, compile_template text = Val g
            /\ forall this args, fn_call g this args = Val (VStr text).
Proof.
  intros Hplain. unfold compile_template, template_body. cbn [new_Function engine].
  unfold make_function. cbn [forallb negb].
  assert (Hid : is_ident "props" && (is_ident "state" && true) = true) by reflexivity.
  rewrite Hid. cbn [negb].
  sapp.
  assert (Hpre : forall rest, startsWith (String "r" (String "e" (String "t" (String "u"
                   (String "r" (String "n" (String " " rest))))))) "return " = true)
    by (intros rest; unfold startsWith; cbn; now destruct rest).
  rewrite Hpre. cbn [String.length Nat.sub String.substring].
  rewrite substring_all.
  unfold parse_expr, parse_simple. cbn [Ascii.eqb Bool.eqb andb].
  rewrite (scan_escaped_plain text Hplain). cbn [exc_bind app].
  eexists. split; [reflexivity |].
  intros this args. cbn. reflexivity.
Qed.
End RoundTrip.

(** C1 (the code at the failing input).  The test suite's definition is
    serialised by [define] in one context and rebuilt by [import] in a
    second one.  Line 342 wraps the stored function text in a template
    literal instead of evaluating it, so for the props [{title: "A"}]
    the original template renders [<div>A</div>] and the rebuilt one
    renders the text of the arrow function around it. *)
Theorem round_trip_template_differs :
  exists (record : JsObject MiniJs.Fun) (sA sB : State MiniJs.Fun)
         (definition' custom : JsObject MiniJs.Fun) (original rebuilt : MiniJs.Fun),
    define (engine := MiniJs.engine) "test-component" test_definition (start [] 1000)
    = Return record sA
    /\ import (engine := MiniJs.engine) (VObj record) [] (start [] 2000)
       = Return (VStr "test-component") sB
    /\ customElements (realm sB) !! "test-component"
       = Some (GeneratedComponent definition' custom)
    /\ prop test_definition "template" = VFun original
    /\ prop definition' "template" = VFun rebuilt
    /\ fn_call (JsEngine := MiniJs.engine) original VUndefined
         [VObj [("title", VStr "A")]; VObj []]
       = Val (VStr "<div>A</div>")
    /\ fn_call (JsEngine := MiniJs.engine) rebuilt VUndefined
         [VObj [("title", VStr "A")]; VObj []]
       = Val (VStr "(props, state) => `<div>A</div>`").
Proof.
  do 7 eexists.
  split; [vm_compute; reflexivity |].
  split; [vm_compute; reflexivity |].
  split; [vm_compute; reflexivity |].
  split; [vm_compute; reflexivity |].
  split; [vm_compute; reflexivity |].
  split; vm_compute; reflexivity.
Qed.

(** ** Attribute changes on a mounted element *)

(** C8 (counterexample).  The definition has a method named [render];
    the loop of lines 241-245 puts it on the prototype in place of the
    class's own.  The element shows [title="A"]; the notification for
    [title="B"] updates the prop, but nothing is rendered. *)
Lemma attribute_change_with_custom_render :
  exists el',
    attributeChangedCallback (engine := MiniJs.engine) "title" (Some "A") (Some "B")
      (connected shadowing_definition)
    = Return tt el'
    /\ prop (el_props (connected shadowing_definition)) "title" = VStr "A"
    /\ prop (el_props el') "title" = VStr "B"
    /\ el_renders el' = el_renders (connected shadowing_definition)
    /\ el_innerHTML el' = el_innerHTML (connected shadowing_definition).
Proof.
  eexists. split; [vm_compute; reflexivity |].
  repeat split; vm_compute; reflexivity.
Qed.

(** C8 (amended).  Take an element whose class has no custom method
    named [attributeChangedCallback] or [render].  A notification with
    equal old and new values leaves the element as it is.  A
    notification with different values writes the new value into
    [props] and runs [render()] once: when the template returns, the
    content becomes the style block followed by the markup computed from
    the updated props; when the template throws, the error comes out of
    the notification with the prop written and the render counted. *)
Theorem attribute_change_rerenders_once {Fn : Type} {engine : JsEngine Fn}
    (el : Element Fn) (name : string) (oldValue newValue : option string) :
  obj_get (el_custom el) "attributeChangedCallback" = None ->
  obj_get (el_custom el) "render" = None ->
  (oldValue = newValue ->
   attributeChangedCallback name oldValue newValue el = Return tt el)
  /\ (oldValue <> newValue ->
      let updated := count_render (with_prop name (attr_value newValue) el) in
      el_props updated = obj_set name (attr_value newValue) (el_props el)
      /\ el_renders updated = S (el_renders el)
      /\ match call_value "definition.template.call"
                 (prop (el_definition el) "template")
                 (this_of updated) [VObj (el_props updated); el_state el] with
         | Val html =>
             attributeChangedCallback name oldValue newValue el
             = Return tt (set_innerHTML
                            (style_block (el_definition el) +:+ js_toString html) updated)
         | Raise e =>
             attributeChangedCallback name oldValue newValue el = Throw e updated
         end).
Proof.
  intros Hcallback Hrender.
  unfold attributeChangedCallback, invoke. run. rewrite Hcallback.
  unfold attributeChangedCallback_own. split.
  - intros Heq. destruct (decide (oldValue = newValue)); [reflexivity | contradiction].
  - intros Hneq. destruct (decide (oldValue = newValue)); [contradiction |].
    cbn zeta. split; [reflexivity |]. split; [reflexivity |].
    unfold set_prop, render, invoke. run. cbn [with_prop el_custom].
    rewrite Hrender. unfold render_own. run. unfold id.
    cbn [count_render with_prop el_definition el_props el_state].
    destruct (call_value "definition.template.call" _ _ _); reflexivity.
Qed.

Lemma attribute_change_witness :
  obj_get (el_custom (connected test_definition)) "attributeChangedCallback" = None
  /\ obj_get (el_custom (connected test_definition)) "render" = None
  /\ Some "A" <> Some "B"
  /\ attributeChangedCallback (engine := MiniJs.engine) "title" (Some "A") (Some "B")
       (connected test_definition)
     = Return tt
         (mkElement test_definition [] {["title" := "A"]} [("title", VStr "B")] (VObj [])
                    "<style>div { color: red; }</style><div>B</div>" 2)
  /\ attributeChangedCallback (engine := MiniJs.engine) "title" (Some "B") (Some "B")
       (connected test_definition)
     = Return tt (connected test_definition).
Proof.
  assert (H1 : obj_get (el_custom (connected test_definition)) "attributeChangedCallback"
               = None) by reflexivity.
  assert (H2 : obj_get (el_custom (connected test_definition)) "render" = None)
    by reflexivity.
  assert (H3 : Some "A" <> Some "B") by discriminate.
  split; [exact H1 |]. split; [exact H2 |]. split; [exact H3 |]. split.
  - destruct (attribute_change_rerenders_once (engine := MiniJs.engine)
                (connected test_definition) "title" (Some "A") (Some "B") H1 H2)
      as [_ Hdiff].
    destruct (Hdiff H3) as (_ & _ & Hrun).
    exact Hrun.
  - destruct (attribute_change_rerenders_once (engine := MiniJs.engine)
                (connected test_definition) "title" (Some "B") (Some "B") H1 H2)
      as [Hsame _].
    apply Hsame. reflexivity.
Defined.

(* ===================================================================== *)
(** * Further properties of the builder *)
(* ===================================================================== *)

(** ** Plain objects: literals and spreads *)

Section ObjectFacts.
Context {Fn : Type}.
Implicit Types (o : JsObject Fn) (k : string) (v : JsValue Fn).

Lemma obj_get_none_keys o k : obj_get o k = None <-> ~ In k (map fst o).
Proof.
  induction o as [| [k0 v0] o IH]; simpl; [tauto |].
  destruct (String.eqb k0 k) eqn:E.
  - apply String.eqb_eq in E. split; [discriminate | tauto].
  - apply String.eqb_neq in E. rewrite IH. tauto.
Qed.

Lemma obj_get_some_keys o k v : obj_get o k = Some v -> In k (map fst o).
Proof.
  intros H. destruct (in_dec String.string_dec k (map fst o)) as [Hin | Hnot];
    [exact Hin |].
  apply obj_get_none_keys in Hnot. congruence.
Qed.

Lemma last_entry_nodup o k :
  List.NoDup (map fst o) -> last_entry k o = obj_get o k.
Proof.
  induction o as [| [k0 v0] o IH]; simpl; [reflexivity |].
  intros Hnodup. inversion Hnodup as [| ? ? Hfresh Hrest]; subst.
  rewrite (IH Hrest).
  destruct (String.eqb k0 k) eqn:E; [| now destruct (obj_get o k)].
  apply String.eqb_eq in E. subst k0.
  apply obj_get_none_keys in Hfresh. now rewrite Hfresh.
Qed.

Lemma obj_set_fresh o k v : ~ In k (map fst o) -> obj_set k v o = o ++ [(k, v)].
Proof.
  induction o as [| [k0 v0] o IH]; simpl; [reflexivity |].
  intros Hnot. destruct (String.eqb k0 k) eqn:E.
  - apply String.eqb_eq in E. tauto.
  - rewrite IH by tauto. reflexivity.
Qed.

Lemma obj_set_keys o k v k' :
  In k' (map fst (obj_set k v o)) <-> k' = k \/ In k' (map fst o).
Proof.
  induction o as [| [k0 v0] o IH]; simpl; [intuition congruence |].
  destruct (String.eqb k0 k) eqn:E; simpl.
  - apply String.eqb_eq in E. subst k0. intuition congruence.
  - rewrite IH. intuition congruence.
Qed.

Lemma obj_set_nodup o k v :
  List.NoDup (map fst o) -> List.NoDup (map fst (obj_set k v o)).
Proof.
  induction o as [| [k0 v0] o IH]; simpl; intros Hnodup.
  - constructor; [tauto | constructor].
  - inversion Hnodup as [| ? ? Hfresh Hrest]; subst.
    destruct (String.eqb k0 k) eqn:E; simpl.
    + apply String.eqb_eq in E. subst k0. now constructor.
    + apply String.eqb_neq in E. constructor; [| now apply IH].
      rewrite obj_set_keys. intuition congruence.
Qed.

Lemma fold_set_nodup (entries : list (string * JsValue Fn)) :
  forall o, List.NoDup (map fst o) ->
            List.NoDup (map fst (fold_left (fun acc kv => obj_set kv.1 kv.2 acc) entries o)).
Proof.
  induction entries as [| [k0 v0] rest IH]; intros o Ho; simpl; [exact Ho |].
  apply IH. now apply obj_set_nodup.
Qed.

(** An object literal never has a key twice. *)
Lemma obj_literal_nodup (entries : list (string * JsValue Fn)) :
  List.NoDup (map fst (obj_literal entries)).
Proof. apply fold_set_nodup. constructor. Qed.

Lemma fold_set_append o :
  forall acc, List.NoDup (map fst (acc ++ o)) ->
              fold_left (fun a kv => obj_set kv.1 kv.2 a) o acc = acc ++ o.
Proof.
  induction o as [| [k0 v0] o IH]; intros acc Hnodup; simpl.
  - now rewrite List.app_nil_r.
  - assert (Hfresh : ~ In k0 (map fst acc)).
    { rewrite List.map_app in Hnodup. simpl in Hnodup.
      apply List.NoDup_remove_2 in Hnodup. rewrite List.in_app_iff in Hnodup. tauto. }
    rewrite (obj_set_fresh acc k0 v0 Hfresh), IH.
    + now rewrite <- List.app_assoc.
    + now rewrite <- List.app_assoc.
Qed.

(** [{...o}] copies a well-formed object. *)
Lemma obj_literal_id o : List.NoDup (map fst o) -> obj_literal o = o.
Proof. intros H. unfold obj_literal. now rewrite fold_set_append. Qed.

Lemma prop_literal (entries : list (string * JsValue Fn)) k :
  prop (obj_literal entries) k = default VUndefined (last_entry k entries).
Proof.
  unfold prop, obj_literal. rewrite obj_get_literal.
  now destruct (last_entry k entries).
Qed.

Lemma last_entry_filtered k (definition : JsObject Fn) :
  In k define_filtered_keys ->
  last_entry k (List.filter kept_by_filter definition) = None.
Proof.
  intros Hk. apply last_entry_absent. intros Hin.
  apply List.in_map_iff in Hin as ([k0 v0] & Hfst & Hin). simpl in Hfst. subst k0.
  apply List.filter_In in Hin as [_ Hkept].
  unfold kept_by_filter in Hkept. apply negb_true_iff in Hkept. simpl fst in Hkept.
  assert (Hex : existsb (String.eqb k) define_filtered_keys = true).
  { apply List.existsb_exists. exists k. split; [exact Hk | apply String.eqb_refl]. }
  congruence.
Qed.
End ObjectFacts.

(** ** The constructor *)

(** X1.  In [this.config] every option the caller supplies keeps the
    value supplied, also a falsy one: [localRegistry: false] is not
    turned into [true] by the default of line 16.  An option that is not
    supplied gets the default: [apiEndpoint] is [null], [localRegistry]
    is [true]. *)
Theorem constructor_options_win {Fn : Type} (options : JsObject Fn) :
  List.NoDup (map fst options) ->
  (forall k v, obj_get options k = Some v -> prop (config (new_builder options)) k = v)
  /\ (obj_get options "apiEndpoint" = None ->
      prop (config (new_builder options)) "apiEndpoint" = VNull)
  /\ (obj_get options "localRegistry" = None ->
      prop (config (new_builder options)) "localRegistry" = VBool true).
Proof.
  intros Hnodup. unfold new_builder. cbn [config].
  split; [| split].
  - intros k v Hget. rewrite prop_literal, last_entry_app, (last_entry_nodup _ _ Hnodup), Hget.
    reflexivity.
  - intros Hnone. rewrite prop_literal, last_entry_app, (last_entry_nodup _ _ Hnodup), Hnone.
    unfold prop. rewrite Hnone. reflexivity.
  - intros Hnone. rewrite prop_literal, last_entry_app, (last_entry_nodup _ _ Hnodup), Hnone.
    unfold prop. rewrite Hnone. reflexivity.
Qed.

Lemma constructor_options_witness :
  List.NoDup (map fst [("localRegistry", VBool (Fn := MiniJs.Fun) false)])
  /\ prop (config (new_builder [("localRegistry", VBool (Fn := MiniJs.Fun) false)]))
          "localRegistry" = VBool false
  /\ prop (config (new_builder [("localRegistry", VBool (Fn := MiniJs.Fun) false)]))
          "apiEndpoint" = VNull.
Proof.
  assert (H : List.NoDup (map fst [("localRegistry", VBool (Fn := MiniJs.Fun) false)])).
  { constructor; [simpl; tauto | constructor]. }
  destruct (constructor_options_win _ H) as (Hwin & Hnull & _).
  split; [exact H |]. split; [apply Hwin | apply Hnull]; reflexivity.
Defined.

(** ** [define]: what the record holds and what else is touched *)

Section DefineMore.
Context {Fn : Type} {engine : JsEngine Fn}.
Implicit Types (name : string) (definition : JsObject Fn) (s : State Fn).

Lemma define_outcome name definition s :
  match serialized_for definition, call_toString "template" (prop definition "template") with
  | Val serializedMethods, Val templateText =>
      let record := componentDef_of name definition serializedMethods templateText
                      (clock (realm s)) in
      define name definition s
      = (registerWebComponent name definition ;; ret record) (set_registry name record s)
  | Raise e, _ => define name definition s = Throw e s
  | Val _, Raise e => define name definition s = Throw e s
  end.
Proof.
  unfold serialized_for, define. run.
  destruct (if truthy (prop definition "methods")
            then serializeMethods (prop definition "methods") else Val []);
    cbn beta iota; [| reflexivity].
  destruct (call_toString "template" (prop definition "template")); reflexivity.
Qed.

Lemma registerWebComponent_frame name definition s :
  let s' := final (registerWebComponent name definition s) in
  builder s' = builder s
  /\ (forall other, other <> name ->
                    customElements (realm s') !! other = customElements (realm s) !! other)
  /\ windowGlobals (realm s') = windowGlobals (realm s)
  /\ console (realm s') = console (realm s)
  /\ fetched (realm s') = fetched (realm s)
  /\ clock (realm s') = clock (realm s).
Proof.
  unfold registerWebComponent, customElements_define. run.
  destruct (customElements (realm s) !! name); [cbn; tauto |].
  destruct (validName (realm s) name); cbn; [| tauto].
  repeat split; try reflexivity.
  intros other Hother. now apply lookup_insert_ne.
Qed.
End DefineMore.

(** X2.  Whatever else the definition holds, the six fields the filter
    of line 40 names are what the literal of lines 32-37 computes: the
    supplied value where it is truthy, the default otherwise; the text
    of the template; the serialised methods.  That record has no key
    twice, and it is in the Definition Store after the call, also when
    the host then refuses the element name. *)
Theorem define_record_fields {Fn : Type} {engine : JsEngine Fn}
    (name : string) (definition serializedMethods : JsObject Fn) (templateText : string)
    (s : State Fn) :
  serialized_for definition = Val serializedMethods ->
  call_toString "template" (prop definition "template") = Val templateText ->
  exists record,
    registry (builder (final (define name definition s))) !! name = Some record
    /\ List.NoDup (map fst record)
    /\ prop record "version" = js_or (prop definition "version") (VStr "1.0.0")
    /\ prop record "props" = js_or (prop definition "props") (VArr [])
    /\ prop record "template" = VStr templateText
    /\ prop record "styles" = js_or (prop definition "styles") (VStr "")
    /\ prop record "methods" = VObj serializedMethods
    /\ prop record "events" = js_or (prop definition "events") (VArr []).
Proof.
  intros Hm Ht.
  pose proof (define_outcome name definition s) as Hdef. rewrite Hm, Ht in Hdef.
  cbn zeta in Hdef.
  set (record := componentDef_of name definition serializedMethods templateText
                   (clock (realm s))) in *.
  exists record. split.
  { rewrite Hdef. unfold bind, ret.
    pose proof (registerWebComponent_frame name definition (set_registry name record s))
      as (Hb & _).
    destruct (registerWebComponent name definition (set_registry name record s));
      cbn in Hb |- *; rewrite Hb; cbn; apply lookup_insert_eq. }
  split; [apply obj_literal_nodup |].
  unfold record, componentDef_of.
  repeat split; rewrite prop_literal, last_entry_app, last_entry_filtered;
    try reflexivity; unfold define_filtered_keys; simpl; tauto.
Qed.

Lemma define_record_fields_witness :
  serialized_for (engine := MiniJs.engine) test_definition = Val []
  /\ call_toString (engine := MiniJs.engine) "template" (prop test_definition "template")
     = Val "(props, state) => `<div>${props.title}</div>`"
  /\ exists record,
       registry (builder (final (define (engine := MiniJs.engine) "test-component"
                                   test_definition (start [] 1000))))
         !! "test-component" = Some record
       /\ prop record "props" = VArr [VStr "title"]
       /\ prop record "events" = VArr [].
Proof.
  assert (Hm : serialized_for (engine := MiniJs.engine) test_definition = Val [])
    by reflexivity.
  assert (Ht : call_toString (engine := MiniJs.engine) "template"
                 (prop test_definition "template")
               = Val "(props, state) => `<div>${props.title}</div>`") by reflexivity.
  split; [exact Hm |]. split; [exact Ht |].
  destruct (define_record_fields (engine := MiniJs.engine) "test-component"
              test_definition [] _ (start [] 1000) Hm Ht)
    as (record & Hstored & _ & _ & Hprops & _ & _ & _ & Hevents).
  exists record. split; [exact Hstored |]. split; [exact Hprops | exact Hevents].
Defined.

(** X3.  [define] touches its own name only: every other entry of the
    Definition Store and of the element registry is as before, and
    nothing is logged, fetched or put on [window], whether the call
    returns or throws. *)
Theorem define_touches_own_name_only {Fn : Type} {engine : JsEngine Fn}
    (name : string) (definition : JsObject Fn) (s : State Fn) :
  let s' := final (define name definition s) in
  (forall other, other <> name ->
      registry (builder s') !! other = registry (builder s) !! other
      /\ customElements (realm s') !! other = customElements (realm s) !! other)
  /\ config (builder s') = config (builder s)
  /\ windowGlobals (realm s') = windowGlobals (realm s)
  /\ console (realm s') = console (realm s)
  /\ fetched (realm s') = fetched (realm s).
Proof.
  pose proof (define_outcome name definition s) as Hdef.
  destruct (serialized_for definition) as [sm | e].
  2: { rewrite Hdef. cbn. repeat split; reflexivity. }
  destruct (call_toString "template" (prop definition "template")) as [t | e].
  2: { rewrite Hdef. cbn. repeat split; reflexivity. }
  cbn zeta in Hdef. rewrite Hdef. clear Hdef.
  set (record := componentDef_of name definition sm t (clock (realm s))).
  pose proof (registerWebComponent_frame name definition (set_registry name record s))
    as (Hb & Hce & Hw & Hc & Hf & _).
  unfold bind, ret.
  destruct (registerWebComponent name definition (set_registry name record s));
    cbn in Hb, Hce, Hw, Hc, Hf |- *; rewrite Hb, Hw, Hc, Hf; cbn;
    (split; [| tauto]); intros other Hother;
    (split; [now apply lookup_insert_ne | now apply Hce]).
Qed.

(** X4.  On a name that is not registered and that the host accepts,
    [define] returns the record, stores it under the name and registers
    the class made from the live definition. *)
Theorem define_registers_fresh_name {Fn : Type} {engine : JsEngine Fn}
    (name : string) (definition serializedMethods : JsObject Fn) (templateText : string)
    (s : State Fn) :
  serialized_for definition = Val serializedMethods ->
  call_toString "template" (prop definition "template") = Val templateText ->
  customElements (realm s) !! name = None ->
  validName (realm s) name = true ->
  exists s',
    define name definition s
    = Return (componentDef_of name definition serializedMethods templateText
                (clock (realm s))) s'
    /\ registry (builder s') !! name
       = Some (componentDef_of name definition serializedMethods templateText
                 (clock (realm s)))
    /\ customElements (realm s') !! name = Some (make_GeneratedComponent definition).
Proof.
  intros Hm Ht Hfresh Hvalid.
  pose proof (define_outcome name definition s) as Hdef. rewrite Hm, Ht in Hdef.
  cbn zeta in Hdef. rewrite Hdef.
  unfold registerWebComponent, customElements_define. run. cbn [set_registry realm].
  rewrite Hfresh. run. cbn [set_registry realm]. rewrite Hvalid.
  eexists. split; [reflexivity |].
  cbn. split; apply lookup_insert_eq.
Qed.

Lemma define_registers_witness :
  exists s',
    define (engine := MiniJs.engine) "test-component" test_definition (start [] 1000)
    = Return (componentDef_of "test-component" test_definition []
                "(props, state) => `<div>${props.title}</div>`" 1000) s'
    /\ customElements (realm s') !! "test-component"
       = Some (make_GeneratedComponent test_definition).
Proof.
  destruct (define_registers_fresh_name (engine := MiniJs.engine) "test-component"
              test_definition [] "(props, state) => `<div>${props.title}</div>`"
              (start [] 1000) eq_refl eq_refl eq_refl eq_refl)
    as (s' & Hret & _ & Hreg).
  exists s'. split; [exact Hret | exact Hreg].
Defined.

(** X5.  [define] writes the Definition Store before it registers the
    element (lines 42 and 45).  When the host refuses the name, the call
    throws the host's error, the record is in the store all the same and
    no element is registered. *)
Theorem define_refused_name_is_stored {Fn : Type} {engine : JsEngine Fn}
    (name : string) (definition serializedMethods : JsObject Fn) (templateText : string)
    (s : State Fn) :
  serialized_for definition = Val serializedMethods ->
  call_toString "template" (prop definition "template") = Val templateText ->
  customElements (realm s) !! name = None ->
  validName (realm s) name = false ->
  exists e,
    define name definition s
    = Throw e (set_registry name
                 (componentDef_of name definition serializedMethods templateText
                    (clock (realm s))) s)
    /\ err_name e = "SyntaxError".
Proof.
  intros Hm Ht Hfresh Hvalid.
  pose proof (define_outcome name definition s) as Hdef. rewrite Hm, Ht in Hdef.
  cbn zeta in Hdef. rewrite Hdef.
  unfold registerWebComponent, customElements_define. run. cbn [set_registry realm].
  rewrite Hfresh. run. cbn [set_registry realm]. rewrite Hvalid.
  eexists. split.
  - unfold set_registry. destruct s as [b r]. reflexivity.
  - reflexivity.
Qed.

Lemma define_refused_name_witness :
  exists e s',
    define (engine := MiniJs.engine) "nohyphen" test_definition (start [] 1000)
    = Throw e s'
    /\ is_Some (registry (builder s') !! "nohyphen")
    /\ customElements (realm s') !! "nohyphen" = None.
Proof.
  destruct (define_refused_name_is_stored (engine := MiniJs.engine) "nohyphen"
              test_definition [] "(props, state) => `<div>${props.title}</div>`"
              (start [] 1000) eq_refl eq_refl eq_refl eq_refl)
    as (e & Hthrow & _).
  exists e. eexists. split; [exact Hthrow |].
  split; [eexists; apply lookup_insert_eq | reflexivity].
Defined.

(** ** [serializeMethods] *)

Section SerializeMethods.
Context {Fn : Type} {engine : JsEngine Fn}.

Lemma serialize_fold (ms : list (string * Fn)) :
  forall acc : JsObject Fn,
    List.NoDup (map fst acc ++ map fst ms) ->
    exc_fold (fun serialized kv =>
                let? text := call_toString kv.1 kv.2 in
                Val (obj_set kv.1 (VStr text) serialized))
             acc (map (fun kf => (kf.1, VFun kf.2)) ms)
    = Val (acc ++ map (fun kf => (kf.1, VStr (fn_toString kf.2))) ms).
Proof.
  induction ms as [| [k f] ms IH]; intros acc Hnodup; simpl.
  - now rewrite List.app_nil_r.
  - assert (Hfresh : ~ In k (map fst acc)).
    { simpl in Hnodup. apply List.NoDup_remove_2 in Hnodup.
      rewrite List.in_app_iff in Hnodup. tauto. }
    rewrite (obj_set_fresh acc k _ Hfresh), IH.
    + now rewrite <- List.app_assoc.
    + rewrite List.map_app, <- List.app_assoc. exact Hnodup.
Qed.

Lemma serialize_raises_TypeError (entries : list (string * JsValue Fn)) :
  forall (acc : JsObject Fn) e,
    exc_fold (fun serialized kv =>
                let? text := call_toString kv.1 kv.2 in
                Val (obj_set kv.1 (VStr text) serialized))
             acc entries = Raise e ->
    err_name e = "TypeError".
Proof.
  induction entries as [| [k v] rest IH]; intros acc e; simpl; [discriminate |].
  destruct v; simpl; try (now apply IH); intros [= <-]; reflexivity.
Qed.
End SerializeMethods.

(** X6.  For a methods object whose values are functions,
    [serializeMethods] never throws: it returns an object with the same
    keys in the same order, each holding the text of its function. *)
Theorem serializeMethods_gives_texts {Fn : Type} {engine : JsEngine Fn}
    (ms : list (string * Fn)) :
  List.NoDup (map fst ms) ->
  serializeMethods (VObj (map (fun kf => (kf.1, VFun kf.2)) ms))
  = Val (map (fun kf => (kf.1, VStr (fn_toString kf.2))) ms).
Proof.
  intros Hnodup. unfold serializeMethods. cbn [own_entries].
  now rewrite serialize_fold.
Qed.

Lemma serializeMethods_witness :
  exists f g,
    js "() => 'test'" = VFun f /\ js "() => 'another'" = VFun g
    /\ serializeMethods (engine := MiniJs.engine)
         (VObj [("testMethod", VFun f); ("anotherMethod", VFun g)])
       = Val [("testMethod", VStr "() => 'test'"); ("anotherMethod", VStr "() => 'another'")].
Proof.
  assert (H : List.NoDup (map fst [("testMethod", MiniJs.mkFun "() => 'test'" [] (MiniJs.EStr "test") []);
                                   ("anotherMethod", MiniJs.mkFun "() => 'another'" []
                                                       (MiniJs.EStr "another") [])])).
  { repeat constructor; simpl; intuition discriminate. }
  do 2 eexists. split; [reflexivity |]. split; [reflexivity |].
  exact (serializeMethods_gives_texts (engine := MiniJs.engine) _ H).
Defined.

(** X7.  A method that is [undefined] or [null] makes [define] throw a
    [TypeError] out of [serializeMethods], before anything is stored or
    registered. *)
Theorem define_rejects_missing_method {Fn : Type} {engine : JsEngine Fn}
    (name methodName : string) (definition : JsObject Fn) (v : JsValue Fn) (s : State Fn) :
  In (methodName, v) (own_entries (prop definition "methods")) ->
  v = VUndefined \/ v = VNull ->
  exists e, define name definition s = Throw e s /\ err_name e = "TypeError".
Proof.
  intros Hin Hv.
  pose proof (define_outcome name definition s) as Hdef.
  unfold serialized_for in Hdef. rewrite (own_entries_truthy _ _ Hin) in Hdef.
  destruct (serializeMethods (prop definition "methods")) as [sm | e] eqn:Es.
  - exfalso. unfold serializeMethods in Es.
    match type of Es with
    | exc_fold ?f ?a ?xs = _ =>
        assert (Hfold : forall acc, exists e, exc_fold f acc xs = Raise e)
    end.
    { apply (exc_fold_raises _ (methodName, v)); [exact Hin |].
      intros acc. destruct Hv as [-> | ->]; cbn; eauto. }
    destruct (Hfold []) as [e He]. congruence.
  - exists e. split; [exact Hdef |].
    unfold serializeMethods in Es. eapply serialize_raises_TypeError. exact Es.
Qed.

Lemma define_rejects_missing_method_witness :
  exists e,
    define (engine := MiniJs.engine) "test-component"
      [("template", js "(props, state) => '<div>test</div>'");
       ("methods", VObj [("close", VNull)])] (start [] 1000)
    = Throw e (start [] 1000)
    /\ err_name e = "TypeError".
Proof.
  apply (define_rejects_missing_method (engine := MiniJs.engine) "test-component" "close"
           _ VNull).
  - left. reflexivity.
  - right. reflexivity.
Defined.

(** ** [export] *)

Section ExportMore.
Context {Fn : Type} {engine : JsEngine Fn}.

Lemma fetch_json_frame (req : Request) (s : State Fn) :
  let s' := final (fetch_json req s) in
  builder s' = builder s
  /\ customElements (realm s') = customElements (realm s)
  /\ windowGlobals (realm s') = windowGlobals (realm s)
  /\ console (realm s') = console (realm s)
  /\ fetched (realm s') = fetched (realm s) ++ [req].
Proof.
  unfold fetch_json. destruct (network (realm s) req); cbn; tauto.
Qed.
End ExportMore.

(** X8.  [export] reads: whatever the name, the options and the outcome,
    the builder (Definition Store and configuration), the element
    registry, the globals and the console are as before; and unless the
    type is ['cloud'] the whole state is, so no request was made. *)
Theorem export_only_reads {Fn : Type} {engine : JsEngine Fn}
    (componentName : string) (options : JsObject Fn) (s : State Fn) :
  let s' := final (export componentName options s) in
  builder s' = builder s
  /\ customElements (realm s') = customElements (realm s)
  /\ windowGlobals (realm s') = windowGlobals (realm s)
  /\ console (realm s') = console (realm s)
  /\ (type_is options "cloud" = false -> s' = s).
Proof.
  unfold export. run.
  destruct (registry (builder s) !! componentName) as [component |] eqn:Hfound;
    [| cbn; tauto].
  cbn beta iota.
  destruct (type_is options "script").
  { destruct (generateScript _); cbn; tauto. }
  destruct (type_is options "cloud").
  - destruct (truthy (apiEndpoint s)) eqn:Hend; [| cbn; intuition discriminate].
    unfold saveToCloud. run. rewrite Hend.
    match goal with
    | |- context [fetch_json ?req s] =>
        pose proof (fetch_json_frame req s) as (Hb & Hce & Hw & Hc & _)
    end.
    cbn zeta in *. intuition discriminate.
  - unfold generateUsageInstructions. run. rewrite Hfound. cbn beta iota.
    destruct (usage_attributes _); cbn; tauto.
Qed.

(** X9.  With an endpoint configured, [export] with type ['cloud'] of a
    stored name makes exactly one request: a [POST] to
    [<endpoint>/components] whose body is the JSON text of the record
    with [exportedAt] and [exportOptions] written into it.  What the
    host answers is returned as it is; when the request fails, the
    failure is what [export] throws. *)
Theorem cloud_export_posts_once {Fn : Type} {engine : JsEngine Fn}
    (componentName : string) (options component : JsObject Fn) (s : State Fn) :
  registry (builder s) !! componentName = Some component ->
  type_is options "cloud" = true ->
  truthy (apiEndpoint s) = true ->
  let req := mkRequest (js_toString (apiEndpoint s) +:+ "/components") "POST"
               (JSON_stringify
                  (VObj (obj_literal
                           (component ++ [("exportedAt", VNum (clock (realm s)));
                                          ("exportOptions", VObj options)])))) in
  let s' := on_realm (fun r => with_fetched (fetched r ++ [req]) r) s in
  export componentName options s
  = match network (realm s) req with
    | Val answer => Return answer s'
    | Raise e => Throw e s'
    end.
Proof.
  intros Hfound Hcloud Hend. unfold export. run. rewrite Hfound. cbn beta iota.
  rewrite (type_is_exclusive _ Hcloud), Hcloud. run. rewrite Hend.
  unfold saveToCloud. run. rewrite Hend. reflexivity.
Qed.

Lemma cloud_export_posts_once_witness :
  exists e s',
    export (engine := MiniJs.engine) "test-component" [("type", VStr "cloud")] cloud_state
    = Throw e s'
    /\ e = TypeError "Failed to fetch"
    /\ map req_url (fetched (realm s')) = ["https://api.example.com/components"]
    /\ map req_method (fetched (realm s')) = ["POST"].
Proof.
  destruct (registry (builder cloud_state) !! "test-component") as [component |] eqn:Hfound;
    [| vm_compute in Hfound; discriminate].
  rewrite (cloud_export_posts_once (engine := MiniJs.engine) "test-component"
             [("type", VStr "cloud")] component cloud_state Hfound eq_refl eq_refl).
  cbn zeta. do 2 eexists. split; [reflexivity |].
  split; [reflexivity |]. split; reflexivity.
Defined.

(** X10.  For a stored record with an array of props, [export] without a
    type (or with any type but ['script'] and ['cloud']) returns the
    envelope [{type: 'json', data, usage}] in which [data] is the record,
    field for field and in order, followed by [exportedAt] (the time of
    the call) and [exportOptions]; nothing is changed. *)
Theorem json_export_envelope {Fn : Type} {engine : JsEngine Fn}
    (componentName : string) (options component : JsObject Fn)
    (items : list (JsValue Fn)) (s : State Fn) :
  registry (builder s) !! componentName = Some component ->
  List.NoDup (map fst component ++ ["exportedAt"; "exportOptions"]) ->
  prop component "props" = VArr items ->
  type_is options "script" = false ->
  type_is options "cloud" = false ->
  exists usage,
    export componentName options s
    = Return (VObj [("type", VStr "json");
                    ("data", VObj (component ++ [("exportedAt", VNum (clock (realm s)));
                                                 ("exportOptions", VObj options)]));
                    ("usage", VStr usage)]) s.
Proof.
  intros Hfound Hnodup Hprops Hscript Hcloud.
  unfold export. run. rewrite Hfound. cbn beta iota. rewrite Hscript, Hcloud.
  unfold generateUsageInstructions. run. rewrite Hfound. cbn beta iota.
  rewrite Hprops. cbn [usage_attributes]. cbn beta iota.
  rewrite obj_literal_id.
  - eexists. reflexivity.
  - rewrite List.map_app. exact Hnodup.
Qed.

Lemma json_export_envelope_witness :
  exists component usage,
    registry (builder defined_state) !! "test-component" = Some component
    /\ export (engine := MiniJs.engine) "test-component" [] defined_state
       = Return (VObj [("type", VStr "json");
                       ("data", VObj (component ++ [("exportedAt", VNum 1000);
                                                    ("exportOptions", VObj [])]));
                       ("usage", VStr usage)]) defined_state.
Proof.
  destruct (registry (builder defined_state) !! "test-component") as [component |] eqn:Hfound;
    [| vm_compute in Hfound; discriminate].
  assert (Hc : component = componentDef_of "test-component" test_definition []
                             "(props, state) => `<div>${props.title}</div>`" 1000).
  { vm_compute in Hfound. injection Hfound as <-. vm_compute. reflexivity. }
  assert (Hnodup : List.NoDup (map fst component ++ ["exportedAt"; "exportOptions"])).
  { subst component. vm_compute. repeat constructor; simpl; intuition discriminate. }
  assert (Hprops : prop component "props" = VArr [VStr "title"]).
  { subst component. reflexivity. }
  destruct (json_export_envelope (engine := MiniJs.engine) "test-component" [] component
              _ defined_state Hfound Hnodup Hprops eq_refl eq_refl) as [usage Hexport].
  exists component, usage. split; [reflexivity | exact Hexport].
Defined.

(** ** [import] and [registerFromData] *)

Section ImportMore.
Context {Fn : Type} {engine : JsEngine Fn}.

Lemma registerFromData_outcome (data options : JsObject Fn) (s : State Fn) :
  registerFromData (VObj data) options s
  = match reconstruct data options with
    | Val definition =>
        (registerWebComponent (js_toString (prop data "name")) definition ;;
         modify (set_registry (js_toString (prop data "name")) data) ;;
         ret (prop data "name")) s
    | Raise e => Throw e s
    end.
Proof.
  unfold registerFromData. run. destruct (reconstruct data options); reflexivity.
Qed.

Lemma registerFromData_not_object (v : JsValue Fn) (options : JsObject Fn) (s : State Fn) :
  (forall data, v <> VObj data) ->
  exists e, registerFromData v options s = Throw e s /\ err_name e = "TypeError".
Proof.
  intros Hv. destruct v; try (eexists; split; reflexivity).
  exfalso. eapply Hv. reflexivity.
Qed.

Lemma registerFromData_frame (v : JsValue Fn) (options : JsObject Fn) (s : State Fn) :
  let s' := final (registerFromData v options s) in
  config (builder s') = config (builder s)
  /\ windowGlobals (realm s') = windowGlobals (realm s)
  /\ console (realm s') = console (realm s)
  /\ fetched (realm s') = fetched (realm s)
  /\ (forall data other,
         v = VObj data -> other <> js_toString (prop data "name") ->
         registry (builder s') !! other = registry (builder s) !! other
         /\ customElements (realm s') !! other = customElements (realm s) !! other).
Proof.
  destruct v as [| | b | n | t | items | data | f];
    try (cbn; split; [| split; [| split; [| split]]]; try reflexivity;
         intros ? ? [=]).
  rewrite registerFromData_outcome.
  destruct (reconstruct data options) as [definition | e].
  2: { cbn. split; [| split; [| split; [| split]]]; try reflexivity.
       intros data' other _ _. split; reflexivity. }
  unfold bind, ret, modify.
  pose proof (registerWebComponent_frame (js_toString (prop data "name")) definition s)
    as (Hb & Hce & Hw & Hc & Hf & _).
  destruct (registerWebComponent (js_toString (prop data "name")) definition s);
    cbn in Hb, Hce, Hw, Hc, Hf |- *; rewrite ?Hb, Hw, Hc, Hf;
    (split; [| split; [| split; [| split]]]; try reflexivity);
    intros data' other [= <-] Hother; split.
  - now apply lookup_insert_ne.
  - now apply Hce.
  - reflexivity.
  - now apply Hce.
Qed.
End ImportMore.

(** X11.  [import] of an object record that has no method to rebuild
    never uses the network: no request is recorded.  It logs nothing and
    sets no global, and it leaves every other name of the Definition
    Store and of the element registry alone. *)
Theorem import_without_methods_stays_local {Fn : Type} {engine : JsEngine Fn}
    (data options : JsObject Fn) (s : State Fn) :
  own_entries (prop data "methods") = [] \/ truthy (prop data "methods") = false ->
  let s' := final (import (VObj data) options s) in
  fetched (realm s') = fetched (realm s)
  /\ console (realm s') = console (realm s)
  /\ windowGlobals (realm s') = windowGlobals (realm s)
  /\ (forall other,
         other <> js_toString (prop data "name") ->
         registry (builder s') !! other = registry (builder s) !! other
         /\ customElements (realm s') !! other = customElements (realm s) !! other).
Proof.
  intros _. rewrite import_object.
  pose proof (registerFromData_frame (VObj data) options s) as (_ & Hw & Hc & Hf & Hother).
  cbn zeta in *. split; [| split; [| split]]; try assumption.
  intros other Hne. now apply (Hother data other).
Qed.

Lemma import_without_methods_witness :
  fetched (realm (final (import (engine := MiniJs.engine)
                           (VObj [("name", VStr "imported-component");
                                  ("props", VArr [VStr "title"]);
                                  ("template", VStr "<div>${props.title}</div>");
                                  ("styles", VStr ""); ("methods", VObj [])])
                           [] (start [] 1000))))
  = [].
Proof.
  apply (import_without_methods_stays_local (engine := MiniJs.engine)
           [("name", VStr "imported-component"); ("props", VArr [VStr "title"]);
            ("template", VStr "<div>${props.title}</div>");
            ("styles", VStr ""); ("methods", VObj [])] [] (start [] 1000)).
  left. reflexivity.
Defined.

(** X12.  A string source that starts with [http] is fetched with one
    plain [GET] of that very string, whether or not an endpoint is
    configured; any other string that does not start with a brace is,
    with an endpoint configured, fetched with one [GET] of
    [<endpoint>/components/<name>].  The answer goes to
    [registerFromData]; a failed request is thrown on, with the request
    recorded and nothing stored or registered. *)
Theorem import_fetches_once {Fn : Type} {engine : JsEngine Fn}
    (text : string) (options : JsObject Fn) (s : State Fn) :
  let req := if startsWith text "http" then mkRequest text "GET" None
             else mkRequest (js_toString (apiEndpoint s) +:+ "/components/" +:+ text)
                            "GET" None in
  startsWith text "http" = true
  \/ (startsWith text "{" = false /\ truthy (apiEndpoint s) = true) ->
  import (VStr text) options s
  = match network (realm s) req with
    | Val answer => registerFromData answer options (requested req s)
    | Raise e => Throw e (requested req s)
    end.
Proof.
  intros req H. unfold import, req. run.
  destruct (startsWith text "http") eqn:Hhttp.
  - unfold fetch_json, requested, on_realm. cbn.
    destruct (network (realm s) (mkRequest text "GET" None)); reflexivity.
  - destruct H as [H | [Hbrace Hend]]; [discriminate |].
    rewrite Hbrace. run. rewrite Hend. unfold loadFromCloud. run. rewrite Hend.
    unfold fetch_json, requested, on_realm. cbn.
    destruct (network (realm s) _); reflexivity.
Qed.

Lemma import_fetches_once_witness :
  import (engine := MiniJs.engine) (VStr "https://example.com/component.json") []
    (start [] 1000)
  = Throw (TypeError "Failed to fetch")
      (requested (mkRequest "https://example.com/component.json" "GET" None) (start [] 1000))
  /\ import (engine := MiniJs.engine) (VStr "cloud-component") [] cloud_state
     = Throw (TypeError "Failed to fetch")
         (requested (mkRequest "https://api.example.com/components/cloud-component" "GET" None)
                    cloud_state).
Proof.
  split.
  - rewrite (import_fetches_once (engine := MiniJs.engine)
               "https://example.com/component.json" [] (start [] 1000));
      [reflexivity | left; reflexivity].
  - rewrite (import_fetches_once (engine := MiniJs.engine) "cloud-component" [] cloud_state);
      [reflexivity | right; split; reflexivity].
Defined.

(** X13.  [import] of a record that can be rebuilt, under a name that is
    free and that the host accepts: the call returns the record's name,
    the Definition Store holds the record exactly as it came in, and the
    element registry holds the class made from the rebuilt definition. *)
Theorem import_registers_fresh_name {Fn : Type} {engine : JsEngine Fn}
    (data options definition : JsObject Fn) (s : State Fn) :
  reconstruct data options = Val definition ->
  customElements (realm s) !! js_toString (prop data "name") = None ->
  validName (realm s) (js_toString (prop data "name")) = true ->
  exists s',
    import (VObj data) options s = Return (prop data "name") s'
    /\ registry (builder s') !! js_toString (prop data "name") = Some data
    /\ customElements (realm s') !! js_toString (prop data "name")
       = Some (make_GeneratedComponent definition).
Proof.
  intros Hrec Hfresh Hvalid.
  rewrite import_object, registerFromData_outcome, Hrec.
  unfold registerWebComponent, customElements_define. run.
  rewrite Hfresh. run. rewrite Hvalid.
  eexists. split; [reflexivity |]. cbn. split; apply lookup_insert_eq.
Qed.

Lemma import_registers_witness :
  exists definition s',
    reconstruct (engine := MiniJs.engine) imported_record [] = Val definition
    /\ import (engine := MiniJs.engine) (VObj imported_record) [] (start [] 1000)
       = Return (VStr "imported-component") s'
    /\ registry (builder s') !! "imported-component" = Some imported_record.
Proof.
  destruct (reconstruct (engine := MiniJs.engine) imported_record []) as [definition | e]
    eqn:Hrec; [| vm_compute in Hrec; discriminate].
  destruct (import_registers_fresh_name (engine := MiniJs.engine) imported_record []
              definition (start [] 1000) Hrec eq_refl eq_refl) as (s' & Hret & Hstore & _).
  exists definition, s'. split; [reflexivity |]. split; [exact Hret | exact Hstore].
Defined.

(** X14.  [registerFromData] registers the element before it writes the
    Definition Store (lines 355 and 356).  When the host refuses the
    name, the call throws the host's error and the state is as before:
    unlike [define], nothing is stored. *)
Theorem import_refused_name_stores_nothing {Fn : Type} {engine : JsEngine Fn}
    (data options definition : JsObject Fn) (s : State Fn) :
  reconstruct data options = Val definition ->
  customElements (realm s) !! js_toString (prop data "name") = None ->
  validName (realm s) (js_toString (prop data "name")) = false ->
  exists e, import (VObj data) options s = Throw e s /\ err_name e = "SyntaxError".
Proof.
  intros Hrec Hfresh Hvalid.
  rewrite import_object, registerFromData_outcome, Hrec.
  unfold registerWebComponent, customElements_define. run.
  rewrite Hfresh. run. rewrite Hvalid.
  eexists. split.
  - destruct s as [b r]. reflexivity.
  - reflexivity.
Qed.

Lemma import_refused_name_witness :
  exists e,
    import (engine := MiniJs.engine)
      (VObj [("name", VStr "Widget"); ("props", VArr []); ("template", VStr "<b>hi</b>");
             ("styles", VStr ""); ("methods", VObj [])]) [] (start [] 1000)
    = Throw e (start [] 1000)
    /\ err_name e = "SyntaxError".
Proof.
  destruct (reconstruct (engine := MiniJs.engine)
              [("name", VStr "Widget"); ("props", VArr []); ("template", VStr "<b>hi</b>");
               ("styles", VStr ""); ("methods", VObj [])] []) as [definition | e]
    eqn:Hrec; [| vm_compute in Hrec; discriminate].
  exact (import_refused_name_stores_nothing (engine := MiniJs.engine) _ []
           definition (start [] 1000) Hrec eq_refl eq_refl).
Defined.

(** X15.  The options of [import] go over the record: in the definition
    that is registered, every option key other than [methods] has the
    option's value, also [template], which then replaces the rebuilt
    one.  Where the options are silent, [props] and [styles] are the
    record's. *)
Theorem import_options_override {Fn : Type} {engine : JsEngine Fn}
    (data options definition : JsObject Fn) :
  reconstruct data options = Val definition ->
  List.NoDup (map fst options) ->
  (forall k v, obj_get options k = Some v -> k <> "methods" -> prop definition k = v)
  /\ (obj_get options "props" = None -> prop definition "props" = prop data "props")
  /\ (obj_get options "styles" = None -> prop definition "styles" = prop data "styles").
Proof.
  intros Hrec Hnodup. unfold reconstruct in Hrec.
  destruct (prop data "template") as [| | b | n | text | items | fields | f];
    try discriminate.
  destruct (compile_template text) as [template |]; [| discriminate].
  cbn [exc_bind] in Hrec.
  destruct (reconstruct_methods _ _) as [methods |]; [| discriminate].
  cbn [exc_bind] in Hrec. injection Hrec as <-.
  match goal with
  | |- context [obj_set "methods" methods ?lit] => set (literal := lit)
  end.
  assert (Hlit : literal
                 = obj_literal ([("props", prop data "props"); ("template", VFun template);
                                 ("styles", prop data "styles"); ("methods", VObj [])]
                                ++ options)) by reflexivity.
  clearbody literal.
  assert (Hother : forall k, k <> "methods" ->
            prop (obj_set "methods" methods literal) k
            = default VUndefined
                (match obj_get options k with
                 | Some w => Some w
                 | None => last_entry k [("props", prop data "props");
                                         ("template", VFun template);
                                         ("styles", prop data "styles");
                                         ("methods", VObj [])]
                 end)).
  { intros k Hk. unfold prop at 1. rewrite obj_get_set.
    destruct (String.eqb "methods" k) eqn:E; [apply String.eqb_eq in E; congruence |].
    fold (prop literal k).
    rewrite Hlit, prop_literal, last_entry_app, (last_entry_nodup _ _ Hnodup). reflexivity. }
  split; [| split].
  - intros k v Hget Hk. rewrite (Hother k Hk), Hget. reflexivity.
  - intros Hnone. rewrite Hother by discriminate. rewrite Hnone. reflexivity.
  - intros Hnone. rewrite Hother by discriminate. rewrite Hnone. reflexivity.
Qed.

Lemma import_options_override_witness :
  exists definition,
    reconstruct (engine := MiniJs.engine) imported_record [("styles", VStr "b { }")]
    = Val definition
    /\ prop definition "styles" = VStr "b { }"
    /\ prop definition "props" = VArr [VStr "title"].
Proof.
  destruct (reconstruct (engine := MiniJs.engine) imported_record [("styles", VStr "b { }")])
    as [definition | e] eqn:Hrec; [| vm_compute in Hrec; discriminate].
  assert (Hnodup : List.NoDup (map fst [("styles", VStr (Fn := MiniJs.Fun) "b { }")])).
  { constructor; [simpl; tauto | constructor]. }
  destruct (import_options_override (engine := MiniJs.engine) imported_record
              [("styles", VStr "b { }")] definition Hrec Hnodup) as (Hwin & Hprops & _).
  exists definition. split; [reflexivity |]. split.
  - apply Hwin; [reflexivity | discriminate].
  - apply Hprops. reflexivity.
Defined.

(** ** The methods loop of [registerFromData] *)

Section ReconstructMethods.
Context {Fn : Type} {engine : JsEngine Fn}.

Lemma reconstruct_fold (ms compiled : list (string * JsValue Fn)) :
  Forall2 (fun kv kv' => kv.1 = kv'.1 /\ compile_method kv.2 = Val kv'.2) ms compiled ->
  forall acc : JsObject Fn,
    List.NoDup (map fst acc ++ map fst ms) ->
    exc_fold (fun tgt kv =>
                let? value := compile_method kv.2 in assign_method tgt kv.1 value)
             (VObj acc) ms
    = Val (VObj (acc ++ compiled)).
Proof.
  induction 1 as [| [k src] [k' value] ms compiled [Hk Hc] _ IH]; intros acc Hnodup; simpl.
  - now rewrite List.app_nil_r.
  - simpl in Hk, Hc. subst k'. rewrite Hc. cbn [exc_bind assign_method].
    assert (Hfresh : ~ In k (map fst acc)).
    { simpl in Hnodup. apply List.NoDup_remove_2 in Hnodup.
      rewrite List.in_app_iff in Hnodup. tauto. }
    rewrite (obj_set_fresh acc k value Hfresh), IH.
    + now rewrite <- List.app_assoc.
    + rewrite List.map_app, <- List.app_assoc. exact Hnodup.
Qed.
End ReconstructMethods.

(** X17.  The loop of lines 349-353 compiles each method on its own:
    when every source compiles, the methods of the rebuilt definition
    are the compiled values under the same names, in the same order. *)
Theorem reconstruct_methods_keeps_names {Fn : Type} {engine : JsEngine Fn}
    (ms compiled : list (string * JsValue Fn)) :
  Forall2 (fun kv kv' => kv.1 = kv'.1 /\ compile_method kv.2 = Val kv'.2) ms compiled ->
  List.NoDup (map fst ms) ->
  reconstruct_methods (VObj ms) (VObj []) = Val (VObj compiled).
Proof.
  intros Hall Hnodup. unfold reconstruct_methods. cbn [truthy own_entries].
  now rewrite (reconstruct_fold ms compiled Hall []).
Qed.

Lemma reconstruct_methods_witness :
  reconstruct_methods (engine := MiniJs.engine)
    (VObj [("label", VStr "() => 'imported'")]) (VObj [])
  = Val (VObj [("label", js "() => 'imported'")]).
Proof.
  apply (reconstruct_methods_keeps_names (engine := MiniJs.engine)).
  - constructor; [split; reflexivity | constructor].
  - constructor; [simpl; tauto | constructor].
Defined.

Lemma reconstructed_template_witness :
  MiniJs.plain_text "(props, state) => '<div>test</div>'" = true
  /\ exists g,
       compile_template (engine := MiniJs.engine) "(props, state) => '<div>test</div>'" = Val g
       /\ fn_call (JsEngine := MiniJs.engine) g VUndefined [VObj [("title", VStr "A")]; VObj []]
          = Val (VStr "(props, state) => '<div>test</div>'").
Proof.
  split; [reflexivity |].
  destruct (reconstructed_template_returns_text "(props, state) => '<div>test</div>'" eq_refl)
    as (g & Hg & Hcall).
  exists g. split; [exact Hg | apply Hcall].
Defined.

Lemma define_spread_wins_witness :
  prop (componentDef_of (Fn := MiniJs.Fun) "my-card"
          [("template", js "(props, state) => '<div>test</div>'");
           ("initialState", VObj [("count", VNum 0)])] [] "t" 1000)
       "initialState"
  = VObj [("count", VNum 0)].
Proof.
  apply define_spread_wins.
  - repeat constructor; simpl; intuition discriminate.
  - reflexivity.
  - reflexivity.
Defined.

(** ** The element adapter: connecting and updating state *)

Section AdapterMore.
Context {Fn : Type} {engine : JsEngine Fn}.
Implicit Types (el : Element Fn).

Lemma attribute_default (attrs : gmap string string) (key : string) :
  js_or (attr_value (Fn := Fn) (attrs !! key)) (VStr "") = attribute_or_empty attrs key.
Proof.
  unfold attribute_or_empty, js_or. destruct (attrs !! key) as [t |]; cbn; [| reflexivity].
  destruct (String.eqb t "") eqn:E; cbn; [| reflexivity].
  apply String.eqb_eq in E. now subst.
Qed.

Lemma render_without_custom el :
  obj_get (el_custom el) "render" = None ->
  render el = match template_call el with
              | Val html => Return tt (shown html el)
              | Raise e => Throw e (count_render el)
              end.
Proof.
  intros Hrender. unfold render, invoke. run. rewrite Hrender.
  unfold render_own, template_call. run. unfold id.
  cbn [count_render el_definition el_props el_state].
  destruct (call_value "definition.template.call" _ _ _); reflexivity.
Qed.

Lemma getAttribute_without_custom el (p : JsValue Fn) :
  obj_get (el_custom el) "getAttribute" = None ->
  getAttribute p el = Return (attr_value (el_attributes el !! js_toString p)) el.
Proof. intros Hcustom. unfold getAttribute. run. now rewrite Hcustom. Qed.

Lemma updateProps_loop (names : list string) :
  forall el,
    obj_get (el_custom el) "getAttribute" = None ->
    fold_right (fun p rest =>
                  let! value := getAttribute p in
                  set_prop (js_toString p) (js_or value (VStr "")) ;; rest)
               (ret tt) (map VStr names) el
    = Return tt (populated names el).
Proof.
  induction names as [| n names IH]; intros el Hcustom.
  - destruct el. reflexivity.
  - cbn [map fold_right]. unfold bind at 1.
    rewrite (getAttribute_without_custom el (VStr n) Hcustom).
    unfold set_prop. run.
    rewrite IH by exact Hcustom. unfold populated, with_prop. cbn.
    rewrite attribute_default. reflexivity.
Qed.

Lemma updateProps_without_custom el (names : list string) :
  obj_get (el_custom el) "updateProps" = None ->
  obj_get (el_custom el) "getAttribute" = None ->
  js_or (prop (el_definition el) "props") (VArr []) = VArr (map VStr names) ->
  updateProps el = Return tt (populated names el).
Proof.
  intros Hcustom Hget Hprops. unfold updateProps, invoke. run. rewrite Hcustom.
  unfold updateProps_own. run. unfold id. rewrite Hprops.
  apply updateProps_loop. exact Hget.
Qed.

Lemma last_entry_mapped (g : string -> JsValue Fn) (names : list string) (k : string) :
  last_entry k (map (fun n => (n, g n)) names)
  = if in_dec String.string_dec k names then Some (g k) else None.
Proof.
  induction names as [| n names IH]; simpl; [reflexivity |].
  rewrite IH. destruct (in_dec String.string_dec k names) as [Hin | Hnot].
  - destruct (String.string_dec n k); reflexivity.
  - destruct (String.eqb n k) eqn:E.
    + apply String.eqb_eq in E. subst n.
      destruct (String.string_dec k k); [reflexivity | congruence].
    + apply String.eqb_neq in E.
      destruct (String.string_dec n k); [congruence | reflexivity].
Qed.
End AdapterMore.

(** X20.  On an element whose class keeps the adapter's own
    [updateProps] and the element's own [getAttribute], [updateProps]
    gives every observed prop the value of its attribute, and the empty
    string when the attribute is missing or empty; props that are not
    observed keep their value, and nothing else of the element
    changes. *)
Theorem updateProps_reads_attributes {Fn : Type} {engine : JsEngine Fn}
    (el : Element Fn) (names : list string) :
  obj_get (el_custom el) "updateProps" = None ->
  obj_get (el_custom el) "getAttribute" = None ->
  js_or (prop (el_definition el) "props") (VArr []) = VArr (map VStr names) ->
  exists el',
    updateProps el = Return tt el'
    /\ (forall n, In n names ->
                  prop (el_props el') n = VStr (default "" (el_attributes el !! n)))
    /\ (forall k, ~ In k names -> prop (el_props el') k = prop (el_props el) k)
    /\ el_state el' = el_state el
    /\ el_innerHTML el' = el_innerHTML el
    /\ el_renders el' = el_renders el
    /\ el_attributes el' = el_attributes el.
Proof.
  intros Hcustom Hget Hprops. exists (populated names el).
  split; [now apply updateProps_without_custom |].
  split; [| split; [| repeat split]].
  - intros n Hin. unfold populated, prop. cbn [el_props].
    rewrite obj_get_literal, last_entry_mapped.
    destruct (in_dec String.string_dec n names); [reflexivity | contradiction].
  - intros k Hnot. unfold populated, prop. cbn [el_props].
    rewrite obj_get_literal, last_entry_mapped.
    destruct (in_dec String.string_dec k names); [contradiction | reflexivity].
Qed.

Lemma updateProps_witness :
  exists el',
    updateProps (engine := MiniJs.engine)
      (mkElement test_definition [] {["title" := "A"]} [] (VObj []) "" 0)
    = Return tt el'
    /\ prop (el_props el') "title" = VStr "A".
Proof.
  destruct (updateProps_reads_attributes (engine := MiniJs.engine)
              (mkElement test_definition [] {["title" := "A"]} [] (VObj []) "" 0)
              ["title"] eq_refl eq_refl eq_refl) as (el' & Hrun & Hobserved & _).
  exists el'. split; [exact Hrun |].
  apply (Hobserved "title"). left. reflexivity.
Defined.

(** X21.  [connectedCallback] on an element whose class keeps the
    adapter's own [connectedCallback], [updateProps] and [render] and
    the element's own [getAttribute]: the props are filled from the
    attributes, then the template is called once with them and the
    content becomes the style block followed by the markup, then the
    [mounted] hook, if there is one, runs on that element, and what the
    hook leaves of it is what the call leaves.  An error of the template
    leaves the props filled and the old content; a [mounted] that is not
    a function, or that throws, fails after the content was replaced. *)
Theorem connectedCallback_fills_renders_mounts
    {Fn : Type} {engine : JsEngine Fn} {hooks : JsHooks Fn}
    (el : Element Fn) (names : list string) :
  obj_get (el_custom el) "connectedCallback" = None ->
  obj_get (el_custom el) "updateProps" = None ->
  obj_get (el_custom el) "getAttribute" = None ->
  obj_get (el_custom el) "render" = None ->
  js_or (prop (el_definition el) "props") (VArr []) = VArr (map VStr names) ->
  connectedCallback el
  = match template_call (populated names el) with
    | Raise e => Throw e (count_render (populated names el))
    | Val html =>
        let displayed := shown html (populated names el) in
        let mounted := prop (el_definition el) "mounted" in
        if truthy mounted
        then match mounted with
             | VFun hook =>
                 match run_on hook [] displayed with
                 | Return _ el' => Return tt el'
                 | Throw e el' => Throw e el'
                 end
             | _ => Throw (TypeError "definition.mounted.call is not a function") displayed
             end
        else Return tt displayed
    end.
Proof.
  intros Hconnected Hupdate Hget Hrender Hprops.
  unfold connectedCallback, invoke. run. rewrite Hconnected.
  unfold connectedCallback_own. run.
  rewrite (updateProps_without_custom el names Hupdate Hget Hprops).
  rewrite (render_without_custom (populated names el)) by exact Hrender.
  destruct (template_call (populated names el)) as [html | e]; [| reflexivity].
  unfold id. cbn zeta.
  change (el_definition (shown html (populated names el))) with (el_definition el).
  destruct (truthy (prop (el_definition el) "mounted")); [| reflexivity].
  destruct (prop (el_definition el) "mounted"); reflexivity.
Qed.

Lemma connectedCallback_witness :
  connectedCallback (engine := MiniJs.engine) (hooks := MiniJs.hooks)
    (mkElement test_definition [] {["title" := "A"]} [] (VObj []) "" 0)
  = Return tt
      (mkElement test_definition [] {["title" := "A"]} [("title", VStr "A")] (VObj [])
                 "<style>div { color: red; }</style><div>A</div>" 1).
Proof.
  rewrite (connectedCallback_fills_renders_mounts (engine := MiniJs.engine)
             (hooks := MiniJs.hooks)
             (mkElement test_definition [] {["title" := "A"]} [] (VObj []) "" 0)
             ["title"] eq_refl eq_refl eq_refl eq_refl eq_refl).
  reflexivity.
Defined.

(** X22.  [setState] on an element whose class keeps the adapter's own
    [setState] and [render]: the new state is the old one with the keys
    of the update written over it, so a key of the update has the
    update's value and every other key keeps its own, and [render()]
    runs once on that state. *)
Theorem setState_merges_and_renders {Fn : Type} {engine : JsEngine Fn}
    (el : Element Fn) (old update : JsObject Fn) :
  obj_get (el_custom el) "setState" = None ->
  obj_get (el_custom el) "render" = None ->
  el_state el = VObj old ->
  List.NoDup (map fst old) -> List.NoDup (map fst update) ->
  let merged := merged_state (VObj old) (VObj update) in
  setState (VObj update) el
  = match template_call (with_state (VObj merged) el) with
    | Val html => Return tt (shown html (with_state (VObj merged) el))
    | Raise e => Throw e (count_render (with_state (VObj merged) el))
    end
  /\ (forall k v, obj_get update k = Some v -> prop merged k = v)
  /\ (forall k, obj_get update k = None -> prop merged k = prop old k).
Proof.
  intros Hset Hrender Hstate Hold Hupdate merged. split; [| split].
  - unfold setState, invoke. run. rewrite Hset. unfold setState_own. run.
    rewrite Hstate.
    change (mkElement (el_definition el) (el_custom el) (el_attributes el) (el_props el)
              (VObj (obj_literal (own_entries (VObj old) ++ own_entries (VObj update))))
              (el_innerHTML el) (el_renders el))
      with (with_state (VObj merged) el).
    now rewrite render_without_custom.
  - intros k v Hget. unfold merged, merged_state. cbn [own_entries].
    rewrite prop_literal, last_entry_app, (last_entry_nodup _ _ Hupdate), Hget. reflexivity.
  - intros k Hnone. unfold merged, merged_state. cbn [own_entries].
    rewrite prop_literal, last_entry_app, (last_entry_nodup _ _ Hupdate), Hnone.
    rewrite (last_entry_nodup _ _ Hold). reflexivity.
Qed.

Lemma setState_witness :
  setState (engine := MiniJs.engine) (VObj [("count", VNum 1)])
    (construct counter_definition [])
  = Return tt
      (mkElement counter_definition [] ∅ []
                 (VObj [("count", VNum 1); ("label", VStr "clicks")])
                 "<span>Count: 1</span>" 1).
Proof.
  assert (Hold : List.NoDup (map fst [("count", VNum (Fn := MiniJs.Fun) 0);
                                      ("label", VStr "clicks")])).
  { repeat constructor; simpl; intuition discriminate. }
  assert (Hupdate : List.NoDup (map fst [("count", VNum (Fn := MiniJs.Fun) 1)])).
  { repeat constructor; simpl; intuition discriminate. }
  destruct (setState_merges_and_renders (engine := MiniJs.engine)
              (construct counter_definition []) _ [("count", VNum 1)]
              eq_refl eq_refl eq_refl Hold Hupdate) as (Hrun & _).
  rewrite Hrun. reflexivity.
Defined.

(** ** The derived identifier and the script text *)

Lemma scan_without_hyphen (s : string) :
  has_char hyphen s = false -> pascal_scan false s = s.
Proof.
  induction s as [| c s IH]; [reflexivity |].
  cbn [has_char pascal_scan andb]. intros H.
  apply orb_false_iff in H as [Hc Hs]. rewrite Hc, (IH Hs). reflexivity.
Qed.

(** X24.  The identifier [toPascalCase] derives has a hyphen in it
    exactly when some hyphen of the name is not followed by a word
    character; a name without any hyphen comes back with its first
    letter in upper case and nothing else changed. *)
Theorem toPascalCase_identifier_hyphens (name : string) :
  has_char hyphen (toPascalCase name) = negb (hyphens_lead_words name)
  /\ (has_char hyphen name = false -> toPascalCase name = capitalize name).
Proof.
  split.
  - unfold toPascalCase. destruct (hyphens_lead_words name) eqn:H; cbn [negb].
    + rewrite (scan_is_walk name H). apply walk_has_no_hyphen.
    + now apply scan_keeps_stray_hyphen.
  - unfold toPascalCase. destruct name as [| c rest]; [reflexivity |].
    cbn [has_char]. intros H. apply orb_false_iff in H as [Hc Hrest].
    cbn [pascal_scan andb capitalize]. rewrite Hc, (scan_without_hyphen rest Hrest).
    destruct (is_word_char c) eqn:Hw; [reflexivity |].
    now rewrite (upper_char_not_word c Hw).
Qed.

(** X25.  [generateScript] returns text exactly when the record's [name]
    is a string, its [methods] are neither [undefined] nor [null] and
    its [props] are an array; in every other case it throws a
    [TypeError]. *)
Theorem generateScript_succeeds_iff {Fn : Type} {engine : JsEngine Fn}
    (componentData : JsObject Fn) :
  ((exists text, generateScript componentData = Val text)
   <-> (exists name, prop componentData "name" = VStr name)
       /\ prop componentData "methods" <> VUndefined
       /\ prop componentData "methods" <> VNull
       /\ (exists items, prop componentData "props" = VArr items))
  /\ (forall e, generateScript componentData = Raise e -> err_name e = "TypeError").
Proof.
  unfold generateScript.
  destruct (prop componentData "name") as [| | b | n | name | items | fields | f];
    cbn [pascal_of exc_bind];
    try solve [split; [split; [intros [? [=]] | intros ((? & [=]) & _)]
                      | intros e [= <-]; reflexivity]].
  destruct (prop componentData "methods") as [| | b | n | t | ms | fields | f];
    cbn [generateMethodsCode exc_bind];
    try solve [split; [split; [intros [? [=]] | intros (_ & ? & ? & _); congruence]
                      | intros e [= <-]; reflexivity]];
    (destruct (prop componentData "props") as [| | b' | n' | t' | items | fields' | f'];
     cbn [usage_attributes exc_bind];
     try solve [split; [split; [intros [? [=]] | intros (_ & _ & _ & ? & [=])]
                       | intros e [= <-]; reflexivity]];
     (split; [split; [intros _; split; [eexists; reflexivity |];
                                 split; [discriminate |];
                                 split; [discriminate | eexists; reflexivity]
                     | intros _; eexists; reflexivity]
             | intros e [=]])).
Qed.
